(** * MCP-SSE-Simple: the Claude/MCP chat client of [client.py]

    A shallow embedding of class [MCPClaudeClient]: the tool catalog
    adapter ([_convert_mcp_tools_to_claude_format]), the tool dispatcher
    ([_execute_mcp_tool]), the two-phase orchestration routine
    ([chat_with_tools]) and the scoped session lifetime ([__aenter__],
    [__aexit__]).

    The Anthropic SDK, the MCP session and the SSE transport are external
    collaborators.  They are an environment [Env]: every call to one of
    them is answered by the environment from its current [World], with
    either a value or a raised exception, and is recorded in a trace.
    The theorems quantify over every environment.

    Exceptions are the instances of Python's [Exception] class, which is
    what [except Exception as e] names; interpreter-level signals that
    only derive from [BaseException] (task cancellation, keyboard
    interrupt) abort a run like a process kill and are not modelled. *)

From stdpp Require Import gmap strings list.

Open Scope string_scope.
Open Scope list_scope.

Set Warnings "-register-all".

(** ** Values exchanged with the outside world *)

(** JSON-like Python values: tool schemas and tool arguments
    ([Dict[str, Any]]). *)
Inductive json : Type :=
| JNull
| JBool (b : bool)
| JNum (z : Z)
| JStr (s : string)
| JArr (items : list json)
| JObj (fields : list (string * json)).

(** Python truthiness, as used by [and], [or] and [if] on such a value. *)
Definition truthy (v : json) : bool :=
  match v with
  | JNull => false
  | JBool b => b
  | JNum z => negb (z =? 0)%Z
  | JStr s => negb (s =? "")
  | JArr items => match items with [] => false | _ => true end
  | JObj fields => match fields with [] => false | _ => true end
  end.

(** An exception object; [str(e)] is its message. *)
Record exn : Type := Exn { exn_class : string; exn_str : string }.

(** A tool descriptor as listed by the MCP server.  [description] is
    [Optional[str]]; [inputSchema] is [None] here when the attribute is
    missing ([hasattr] fails) and [Some JNull] when it holds [None]. *)
Module Tool.
Record t : Type := Make
  { name : string;
    description : option string;
    inputSchema : option json }.
End Tool.

(** An entry of the tool list sent to the model: the dict
    [{"name": .., "description": .., "input_schema": ..}]. *)
Module ClaudeTool.
Record t : Type := Make
  { name : string;
    description : string;
    input_schema : json }.
End ClaudeTool.

(** Content blocks.  [TextBlock] and [ToolUseBlock] are the SDK objects a
    response carries, a [ToolResultBlock] is the dict
    [{"type": "tool_result", "tool_use_id": .., "content": ..}] the client
    builds; the [type] tag discriminates the union. *)
Inductive ContentBlock : Type :=
| TextBlock (text : string)
| ToolUseBlock (id name : string) (input : json)
| ToolResultBlock (tool_use_id content : string)
| ThinkingBlock (thinking : string).

Definition block_type (b : ContentBlock) : string :=
  match b with
  | TextBlock _ => "text"
  | ToolUseBlock _ _ _ => "tool_use"
  | ToolResultBlock _ _ => "tool_result"
  | ThinkingBlock _ => "thinking"
  end.

(** The [content] of a chat message: plain text or a list of blocks. *)
Inductive Content : Type :=
| ContentText (s : string)
| ContentBlocks (blocks : list ContentBlock).

(** A chat message in Claude format: a dict with the keys ["role"] and
    ["content"], [{"role": .., "content": ..}]. *)
Module Message.
Record t : Type := Make { role : string; content : Content }.
End Message.

(** The [tools] keyword of [messages.create]: left out of the call,
    passed as [None], or passed as a list. *)
Inductive ToolsArg : Type :=
| ToolsNotGiven
| ToolsNone
| ToolsList (tools : list ClaudeTool.t).

(** One call of [claude_client.messages.create]; [messages] is the
    content of the list object at the time of the call. *)
Module Request.
Record t : Type := Make
  { model : string;
    max_tokens : Z;
    system : option Content;
    messages : list Message.t;
    tools : ToolsArg }.
End Request.

Module Response.
Record t : Type := Make
  { stop_reason : option string;
    content : list ContentBlock }.
End Response.

(** Items of a tool result.  Only [TextContent] has a [text] attribute. *)
Inductive ContentItem : Type :=
| TextContent (text : string)
| ImageContent (data mimeType : string)
| EmbeddedResource (uri : string).

Definition item_class (c : ContentItem) : string :=
  match c with
  | TextContent _ => "TextContent"
  | ImageContent _ _ => "ImageContent"
  | EmbeddedResource _ => "EmbeddedResource"
  end.

Record CallToolResult : Type := { result_content : list ContentItem }.

(** Handles owned by the client object. *)
Record SseConnection : Type := { sse_url : string }.
Record ClientSession : Type := { session_read : nat; session_write : nat }.

(** The attributes of an [MCPClaudeClient] object.  [sse_connection] and
    [read_write] are [None] while the attribute does not exist;
    [mcp_session] is [None] for Python's [None]. *)
Module MCPClaudeClient.
Record t : Type := Make
  { mcp_server_url : string;
    mcp_session : option ClientSession;
    sse_connection : option SseConnection;
    read_write : option (nat * nat);
    available_tools : list Tool.t }.
End MCPClaudeClient.

(** [MCPClaudeClient.__init__] *)
Definition __init__ (mcp_server_url : string) : MCPClaudeClient.t :=
  {| MCPClaudeClient.mcp_server_url := mcp_server_url;
     MCPClaudeClient.mcp_session := None;
     MCPClaudeClient.sse_connection := None;
     MCPClaudeClient.read_write := None;
     MCPClaudeClient.available_tools := [] |}.

Definition default_mcp_server_url : string := "http://localhost:8000/sse".

(** ** The tool catalog adapter (pure) *)

(** [tool.description or ""] *)
Definition description_or_empty (d : option string) : string :=
  match d with
  | Some s => if s =? "" then "" else s
  | None => ""
  end.

Definition fallback_schema : json :=
  JObj [("type", JStr "object"); ("properties", JObj [])].

(** [hasattr(tool, 'inputSchema') and tool.inputSchema] *)
Definition schema_available (tool : Tool.t) : bool :=
  match Tool.inputSchema tool with
  | Some s => truthy s
  | None => false
  end.

(** The body of the [for tool in self.available_tools] loop. *)
Definition claude_tool_of (tool : Tool.t) : ClaudeTool.t :=
  {| ClaudeTool.name := Tool.name tool;
     ClaudeTool.description := description_or_empty (Tool.description tool);
     ClaudeTool.input_schema :=
       match Tool.inputSchema tool with
       | Some s => if truthy s then s else fallback_schema
       | None => fallback_schema
       end |}.

Fixpoint convert_loop (tools : list Tool.t) (claude_tools : list ClaudeTool.t)
  : list ClaudeTool.t :=
  match tools with
  | [] => claude_tools
  | tool :: rest => convert_loop rest (claude_tools ++ [claude_tool_of tool])
  end.

Definition _convert_mcp_tools_to_claude_format (self : MCPClaudeClient.t)
  : list ClaudeTool.t :=
  convert_loop (MCPClaudeClient.available_tools self) [].

(** ** The environment and the effects of the client *)

(** What [__aexit__] receives: the exception that ends the [async with]
    body, or [None] on a normal exit. *)
Definition ExcInfo : Type := option exn.

(** The outside world.  Each field answers one kind of external call
    from the current world: a value or a raised exception, and the next
    world. *)
Record Env : Type :=
  { World : Type;
    (* claude_client.messages.create(...) *)
    messages_create : Request.t -> World -> (exn + Response.t) * World;
    (* mcp_session.call_tool(name=.., arguments=..) *)
    call_tool : ClientSession -> string -> json -> World ->
                (exn + CallToolResult) * World;
    (* sse_connection.__aenter__() *)
    sse_aenter : SseConnection -> World -> (exn + nat * nat) * World;
    (* mcp_session.__aenter__(), .initialize(), .list_tools() *)
    session_aenter : ClientSession -> World -> (exn + unit) * World;
    session_initialize : ClientSession -> World -> (exn + unit) * World;
    session_list_tools : ClientSession -> World ->
                         (exn + list Tool.t) * World;
    (* mcp_session.__aexit__(..), sse_connection.__aexit__(..); the value
       they return is not used by the client *)
    session_aexit : ClientSession -> ExcInfo -> World -> (exn + bool) * World;
    sse_aexit : SseConnection -> ExcInfo -> World -> (exn + bool) * World }.

(** Observable events, in the order they happen. *)
Inductive Event : Type :=
| EvCreate (req : Request.t)
| EvPrint (tool_name : string) (tool_input : json)
| EvCallTool (session : ClientSession) (name : string) (arguments : json)
| EvSseEnter (conn : SseConnection)
| EvSessionEnter (session : ClientSession)
| EvInitialize (session : ClientSession)
| EvListTools (session : ClientSession)
| EvSessionExit (session : ClientSession) (exc : ExcInfo)
| EvSseExit (conn : SseConnection) (exc : ExcInfo).

(** References to Python list objects holding chat messages. *)
Definition loc : Type := positive.

Section Client.

Variable E : Env.

(** The state a method runs in: the outside world, the store of message
    lists (the caller's history and the working list of
    [chat_with_tools] live here), the attributes of [self], and the trace
    of events so far.  The lists are mutable objects, reached through
    their reference; the message dicts in them are values, since no
    statement of the client stores into a message it was given. *)
Record State : Type := MkState
  { world : World E;
    heap : gmap loc (list Message.t);
    self_obj : MCPClaudeClient.t;
    trace : list Event }.

(** Computations: from a state to a raised exception or a value, and the
    state reached. *)
Definition M (A : Type) : Type := State -> (exn + A) * State.

Definition ret {A} (a : A) : M A := fun st => (inr a, st).

Definition raise {A} (e : exn) : M A := fun st => (inl e, st).

Definition bind {A B} (m : M A) (k : A -> M B) : M B :=
  fun st =>
    match m st with
    | (inr a, st') => k a st'
    | (inl e, st') => (inl e, st')
    end.

(** [try: m  except Exception as e: h e] *)
Definition try_except {A} (m : M A) (h : exn -> M A) : M A :=
  fun st =>
    match m st with
    | (inr a, st') => (inr a, st')
    | (inl e, st') => h e st'
    end.

Notation "x <- m ;; k" := (bind m (fun x => k))
  (at level 100, m at next level, right associativity).
Notation "m ;;; k" := (bind m (fun _ => k))
  (at level 100, right associativity).

Definition get_self : M MCPClaudeClient.t := fun st => (inr (self_obj st), st).

Definition set_self (f : MCPClaudeClient.t -> MCPClaudeClient.t) : M unit :=
  fun st => (inr tt, MkState (world st) (heap st) (f (self_obj st)) (trace st)).

Definition log (ev : Event) : M unit :=
  fun st => (inr tt, MkState (world st) (heap st) (self_obj st) (trace st ++ [ev])).

(** An external call: recorded, then answered by the environment. *)
Definition external {A} (ev : Event)
    (call : World E -> (exn + A) * World E) : M A :=
  fun st =>
    let '(r, w) := call (world st) in
    (r, MkState w (heap st) (self_obj st) (trace st ++ [ev])).

(** [[m1, .., mn]]: a new list object. *)
Definition list_literal (ms : list Message.t) : M loc :=
  fun st =>
    let l := fresh (dom (heap st)) in
    (inr l, MkState (world st) (<[l := ms]> (heap st)) (self_obj st) (trace st)).

(** [[]]: a new, empty list object. *)
Definition new_list : M loc := list_literal [].

(** The elements of a list object. *)
Definition read_list (l : loc) : M (list Message.t) :=
  fun st =>
    match heap st !! l with
    | Some ms => (inr ms, st)
    | None => (inl (Exn "ReferenceError" "no such list object"), st)
    end.

(** [l.append(msg)] *)
Definition list_append (l : loc) (msg : Message.t) : M unit :=
  fun st =>
    match heap st !! l with
    | Some ms =>
        (inr tt, MkState (world st) (<[l := ms ++ [msg]]> (heap st))
                         (self_obj st) (trace st))
    | None => (inl (Exn "ReferenceError" "no such list object"), st)
    end.

(** *** Attribute stores on [self] *)

Definition with_sse_connection (c : SseConnection) (self : MCPClaudeClient.t)
  : MCPClaudeClient.t :=
  {| MCPClaudeClient.mcp_server_url := MCPClaudeClient.mcp_server_url self;
     MCPClaudeClient.mcp_session := MCPClaudeClient.mcp_session self;
     MCPClaudeClient.sse_connection := Some c;
     MCPClaudeClient.read_write := MCPClaudeClient.read_write self;
     MCPClaudeClient.available_tools := MCPClaudeClient.available_tools self |}.

Definition with_read_write (rw : nat * nat) (self : MCPClaudeClient.t)
  : MCPClaudeClient.t :=
  {| MCPClaudeClient.mcp_server_url := MCPClaudeClient.mcp_server_url self;
     MCPClaudeClient.mcp_session := MCPClaudeClient.mcp_session self;
     MCPClaudeClient.sse_connection := MCPClaudeClient.sse_connection self;
     MCPClaudeClient.read_write := Some rw;
     MCPClaudeClient.available_tools := MCPClaudeClient.available_tools self |}.

Definition with_mcp_session (s : ClientSession) (self : MCPClaudeClient.t)
  : MCPClaudeClient.t :=
  {| MCPClaudeClient.mcp_server_url := MCPClaudeClient.mcp_server_url self;
     MCPClaudeClient.mcp_session := Some s;
     MCPClaudeClient.sse_connection := MCPClaudeClient.sse_connection self;
     MCPClaudeClient.read_write := MCPClaudeClient.read_write self;
     MCPClaudeClient.available_tools := MCPClaudeClient.available_tools self |}.

Definition with_available_tools (ts : list Tool.t) (self : MCPClaudeClient.t)
  : MCPClaudeClient.t :=
  {| MCPClaudeClient.mcp_server_url := MCPClaudeClient.mcp_server_url self;
     MCPClaudeClient.mcp_session := MCPClaudeClient.mcp_session self;
     MCPClaudeClient.sse_connection := MCPClaudeClient.sse_connection self;
     MCPClaudeClient.read_write := MCPClaudeClient.read_write self;
     MCPClaudeClient.available_tools := ts |}.

(** *** The session lifetime *)

Definition __aenter__ : M unit :=
  self <- get_self ;;
  (* Establish MCP connection *)
  let conn := {| sse_url := MCPClaudeClient.mcp_server_url self |} in
  set_self (with_sse_connection conn) ;;;
  rw <- external (EvSseEnter conn) (sse_aenter E conn) ;;
  set_self (with_read_write rw) ;;;
  (* Initialize MCP session *)
  let session := {| session_read := fst rw; session_write := snd rw |} in
  set_self (with_mcp_session session) ;;;
  external (EvSessionEnter session) (session_aenter E session) ;;;
  external (EvInitialize session) (session_initialize E session) ;;;
  (* Get available tools *)
  tools <- external (EvListTools session) (session_list_tools E session) ;;
  set_self (with_available_tools tools) ;;;
  ret tt.

Definition __aexit__ (exc : ExcInfo) : M unit :=
  self <- get_self ;;
  (* if self.mcp_session: *)
  match MCPClaudeClient.mcp_session self with
  | Some s => external (EvSessionExit s exc) (session_aexit E s exc) ;;; ret tt
  | None => ret tt
  end ;;;
  self <- get_self ;;
  (* if hasattr(self, 'sse_connection'): *)
  match MCPClaudeClient.sse_connection self with
  | Some c => external (EvSseExit c exc) (sse_aexit E c exc) ;;; ret tt
  | None => ret tt
  end.

(** The exception information [async with] hands to [__aexit__]. *)
Definition exit_info {A} (r : exn + A) : ExcInfo :=
  match r with
  | inl e => Some e
  | inr _ => None
  end.

(** [async with client: body].  [__aexit__] runs only once [__aenter__]
    has returned; it returns [None], so an exception of the body is
    raised again after it, unless [__aexit__] itself raises. *)
Definition async_with {A} (body : M A) : M A :=
  fun st =>
    match __aenter__ st with
    | (inl e, st1) => (inl e, st1)
    | (inr _, st1) =>
        let '(r, st2) := body st1 in
        match __aexit__ (exit_info r) st2 with
        | (inr _, st3) => (r, st3)
        | (inl e', st3) => (inl e', st3)
        end
    end.

(** *** The tool dispatcher *)

(** [self.mcp_session.call_tool(name=tool_name, arguments=arguments)] *)
Definition session_call_tool (tool_name : string) (arguments : json)
  : M CallToolResult :=
  self <- get_self ;;
  match MCPClaudeClient.mcp_session self with
  | Some s =>
      external (EvCallTool s tool_name arguments) (call_tool E s tool_name arguments)
  | None =>
      raise (Exn "AttributeError" "'NoneType' object has no attribute 'call_tool'")
  end.

(** [item.text] *)
Definition item_text (c : ContentItem) : M string :=
  match c with
  | TextContent text => ret text
  | _ =>
      raise (Exn "AttributeError"
                 ("'" +:+ item_class c +:+ "' object has no attribute 'text'"))
  end.

Definition no_content_message (tool_name : string) : string :=
  "Tool " +:+ tool_name +:+ " executed successfully but returned no content.".

Definition error_message (tool_name : string) (e : exn) : string :=
  "Error executing tool " +:+ tool_name +:+ ": " +:+ exn_str e.

Definition _execute_mcp_tool (tool_name : string) (arguments : json) : M string :=
  try_except
    (result <- session_call_tool tool_name arguments ;;
     (* Extract text content from the result *)
     let content := result_content result in
     if match content with [] => false | _ => true end
        && (0 <? length content)%nat
     then
       match content !! 0%nat with
       | Some item => item_text item
       | None => raise (Exn "IndexError" "list index out of range")
       end
     else ret (no_content_message tool_name))
    (fun e => ret (error_message tool_name e)).

(** *** The conversation orchestrator *)

Definition default_model : string := "claude-3-5-sonnet-20241022".
Definition default_max_tokens : Z := 1024.

(** [for msg in messages]: separate system message from conversation
    messages. *)
Fixpoint separate_loop (msgs : list Message.t) (system_message : option Content)
    (conversation_messages : loc) : M (option Content) :=
  match msgs with
  | [] => ret system_message
  | msg :: rest =>
      if Message.role msg =? "system" then
        separate_loop rest (Some (Message.content msg)) conversation_messages
      else
        list_append conversation_messages msg ;;;
        separate_loop rest system_message conversation_messages
  end.

(** [for content_block in response.content]: process tool calls. *)
Fixpoint tool_loop (blocks : list ContentBlock) (tool_results : list ContentBlock)
  : M (list ContentBlock) :=
  match blocks with
  | [] => ret tool_results
  | content_block :: rest =>
      match content_block with
      | ToolUseBlock tool_id tool_name tool_input =>
          log (EvPrint tool_name tool_input) ;;;
          (* Execute the MCP tool *)
          tool_result <- _execute_mcp_tool tool_name tool_input ;;
          tool_loop rest (tool_results ++ [ToolResultBlock tool_id tool_result])
      | _ => tool_loop rest tool_results
      end
  end.

(** [for content_block in response.content]: extract text content. *)
Fixpoint text_loop (blocks : list ContentBlock) (text_content : string) : string :=
  match blocks with
  | [] => text_content
  | content_block :: rest =>
      match content_block with
      | TextBlock text => text_loop rest (text_content +:+ text)
      | _ => text_loop rest text_content
      end
  end.

(** [await self.claude_client.messages.create(model=.., max_tokens=..,
    system=.., messages=.., tools=..)] *)
Definition create (model : string) (max_tokens : Z) (system : option Content)
    (messages : loc) (tools : ToolsArg) : M Response.t :=
  ms <- read_list messages ;;
  let req := Request.Make model max_tokens system ms tools in
  external (EvCreate req) (messages_create E req).

(** [response.stop_reason == "tool_use"] *)
Definition is_tool_use (response : Response.t) : bool :=
  match Response.stop_reason response with
  | Some r => r =? "tool_use"
  | None => false
  end.

(** [claude_tools if claude_tools else None] *)
Definition tools_or_none (claude_tools : list ClaudeTool.t) : ToolsArg :=
  match claude_tools with
  | [] => ToolsNone
  | _ => ToolsList claude_tools
  end.

(** The body of [if response.stop_reason == "tool_use":]. *)
Definition tool_use_branch (conversation_messages : loc) (model : string)
    (max_tokens : Z) (system_message : option Content) (response : Response.t)
  : M string :=
  (* Add Claude's response to conversation *)
  list_append conversation_messages
    (Message.Make "assistant" (ContentBlocks (Response.content response))) ;;;
  (* Process tool calls *)
  tool_results <- tool_loop (Response.content response) [] ;;
  (* Add tool results to conversation *)
  list_append conversation_messages
    (Message.Make "user" (ContentBlocks tool_results)) ;;;
  (* Get final response after tool execution *)
  final_response <- create model max_tokens system_message
                           conversation_messages ToolsNotGiven ;;
  (* Extract text content from final response *)
  ret (text_loop (Response.content final_response) "").

Definition chat_with_tools (messages : loc) (model : string) (max_tokens : Z)
  : M string :=
  self <- get_self ;;
  let claude_tools := _convert_mcp_tools_to_claude_format self in
  (* Separate system message from conversation messages *)
  conversation_messages <- new_list ;;
  (* for msg in messages: the loop runs over the elements of [messages],
     which it never appends to *)
  msgs <- read_list messages ;;
  system_message <- separate_loop msgs None conversation_messages ;;
  (* Make initial chat completion request *)
  response <- create model max_tokens system_message conversation_messages
                     (tools_or_none claude_tools) ;;
  (* Handle tool use *)
  if is_tool_use response then
    tool_use_branch conversation_messages model max_tokens system_message
                    response
  else
    (* Extract text content from response *)
    ret (text_loop (Response.content response) "").

(** [simple_claude_mcp_chat(user_message, anthropic_api_key)], on a client
    object already constructed. *)
Definition simple_chat_body (user_message : string) : M string :=
  messages <- list_literal [Message.Make "user" (ContentText user_message)] ;;
  chat_with_tools messages default_model default_max_tokens.

Definition simple_claude_mcp_chat (user_message : string) : M string :=
  async_with (simple_chat_body user_message).

End Client.

Arguments MkState {E}.
Arguments world {E}.
Arguments heap {E}.
Arguments self_obj {E}.
Arguments trace {E}.
Arguments ret {E A}.
Arguments raise {E A}.
Arguments bind {E A B}.
Arguments try_except {E A}.
Arguments get_self {E}.
Arguments set_self {E}.
Arguments log {E}.
Arguments external {E A}.
Arguments list_literal {E}.
Arguments new_list {E}.
Arguments read_list {E}.
Arguments list_append {E}.
Arguments item_text {E}.
Arguments separate_loop {E}.
Arguments exit_info {A}.

(** ** The command-line entry points: [main] and [quick_example] *)

(** What the entry points print, one constructor per [print] statement
    (and one for the prompt of [input]); the arguments are the values
    formatted into the line. *)
Inductive Output : Type :=
| OutPleaseSetKey
| OutKeyOption1
| OutKeyOption2
| OutConnected
| OutAvailableTools (names : list string)
| OutBlank
| OutStarting
| OutClaude (response : string)
| OutSeparator
| OutInteractive
| OutPrompt
| OutError (message : string)
| OutFailedToConnect (message : string)
| OutServerHint
| OutSetEnvironment
| OutQuickAnswer (response : string).

(** The default of [os.getenv("ANTHROPIC_API_KEY", ..)] in [main]. *)
Definition placeholder_key : string := "your-anthropic-api-key-here".

(** [str.lower] on the ASCII letters; other bytes are left as they are. *)
Definition lower_ascii (c : Ascii.ascii) : Ascii.ascii :=
  let n := Ascii.N_of_ascii c in
  if (65 <=? n)%N && (n <=? 90)%N then Ascii.ascii_of_N (n + 32) else c.

Fixpoint lower (s : string) : string :=
  match s with
  | EmptyString => EmptyString
  | String c rest => String (lower_ascii c) (lower rest)
  end.

(** [user_input.lower() in ['quit', 'exit', 'bye']] *)
Definition is_quit (user_input : string) : bool :=
  existsb (String.eqb (lower user_input)) ["quit"; "exit"; "bye"].

Definition weather_system_message : Message.t :=
  Message.Make "system"
    (ContentText "You are a helpful assistant that can check weather information for cities. Use the available tools when users ask about weather.").

Definition eof_error : exn := Exn "EOFError" "EOF when reading a line".

Section Cli.

Variable E : Env.

(** The entry points run in the state of the client and write to the
    terminal. *)
Definition Cli (A : Type) : Type :=
  State E * list Output -> (exn + A) * (State E * list Output).

Definition cli_ret {A} (a : A) : Cli A := fun cst => (inr a, cst).

Definition cli_bind {A B} (m : Cli A) (k : A -> Cli B) : Cli B :=
  fun cst =>
    match m cst with
    | (inr a, cst') => k a cst'
    | (inl e, cst') => (inl e, cst')
    end.

(** [try: m  except Exception as e: h e] *)
Definition cli_try {A} (m : Cli A) (h : exn -> Cli A) : Cli A :=
  fun cst =>
    match m cst with
    | (inr a, cst') => (inr a, cst')
    | (inl e, cst') => h e cst'
    end.

(** A method of the client, run from an entry point. *)
Definition lift {A} (m : M E A) : Cli A :=
  fun cst =>
    let '(r, st') := m (fst cst) in (r, (st', snd cst)).

Definition print (o : Output) : Cli unit :=
  fun cst => (inr tt, (fst cst, snd cst ++ [o])).

Notation "x <~ m ;; k" := (cli_bind m (fun x => k))
  (at level 100, m at next level, right associativity).
Notation "m ;;~ k" := (cli_bind m (fun _ => k))
  (at level 100, right associativity).

(** [MCPClaudeClient(api_key)]: a new client object becomes [self]. *)
Definition construct_client : Cli unit :=
  lift (set_self (fun _ => __init__ default_mcp_server_url)).

(** [async with client: body], for a body that prints. *)
Definition cli_async_with {A} (body : Cli A) : Cli A :=
  fun cst =>
    match lift (__aenter__ E) cst with
    | (inl e, cst1) => (inl e, cst1)
    | (inr _, cst1) =>
        let '(r, cst2) := body cst1 in
        match lift (__aexit__ E (exit_info r)) cst2 with
        | (inr _, cst3) => (r, cst3)
        | (inl e', cst3) => (inl e', cst3)
        end
    end.

(** The [while True:] loop of [main], over the lines still to be read
    from standard input; [input] raises [EOFError] when there is none. *)
Fixpoint chat_loop (inputs : list string) (conversation_history : loc)
  : Cli unit :=
  match inputs with
  | [] => print OutPrompt ;;~ (fun cst => (inl eof_error, cst))
  | user_input :: rest =>
      print OutPrompt ;;~
      if is_quit user_input then cli_ret tt
      else
        lift (list_append conversation_history
                (Message.Make "user" (ContentText user_input))) ;;~
        cli_try
          (response <~ lift (chat_with_tools E conversation_history
                               "claude-3-5-sonnet-20241022" default_max_tokens) ;;
           print (OutClaude response) ;;~
           (* Add Claude's response to conversation history *)
           lift (list_append conversation_history
                   (Message.Make "assistant" (ContentText response))))
          (fun e => print (OutError (exn_str e))) ;;~
        chat_loop rest conversation_history
  end.

(** The body of the [async with] block of [main]. *)
Definition main_session (inputs : list string) : Cli unit :=
  print OutConnected ;;~
  client <~ lift get_self ;;
  print (OutAvailableTools
           (map Tool.name (MCPClaudeClient.available_tools client))) ;;~
  print OutBlank ;;~
  (* Example conversation *)
  messages <~ lift (list_literal
                      [weather_system_message;
                       Message.Make "user"
                         (ContentText "What's the weather like in Tokyo and New York?")]) ;;
  print OutStarting ;;~
  response <~ lift (chat_with_tools E messages "claude-3-5-sonnet-20241022"
                      default_max_tokens) ;;
  print (OutClaude response) ;;~
  print OutSeparator ;;~
  (* Interactive chat loop *)
  print OutInteractive ;;~
  conversation_history <~ lift (list_literal [weather_system_message]) ;;
  chat_loop inputs conversation_history.

(** [main()]: [key] is the value of the environment variable
    [ANTHROPIC_API_KEY], when it is set. *)
Definition main (key : option string) (inputs : list string) : Cli unit :=
  let ANTHROPIC_API_KEY := from_option id placeholder_key key in
  if ANTHROPIC_API_KEY =? "your-anthropic-api-key-here" then
    print OutPleaseSetKey ;;~
    print OutKeyOption1 ;;~
    print OutKeyOption2 ;;~
    cli_ret tt
  else
    cli_try
      (construct_client ;;~
       cli_async_with (main_session inputs))
      (fun e =>
         print (OutFailedToConnect (exn_str e)) ;;~
         print OutServerHint).

(** [quick_example()] *)
Definition quick_example (key : option string) : Cli unit :=
  (* if not api_key: *)
  match key with
  | None => print OutSetEnvironment
  | Some api_key =>
      if api_key =? "" then print OutSetEnvironment
      else
        construct_client ;;~
        response <~ lift (simple_claude_mcp_chat E "What's the weather in London?") ;;
        print (OutQuickAnswer response)
  end.

End Cli.

Arguments cli_ret {E A}.
Arguments cli_bind {E A B}.
Arguments cli_try {E A}.
Arguments lift {E A}.
Arguments print {E}.

(** ** The tool server of [server.py] and concrete environments *)

(** [get_weather] of [server.py]. *)
Definition get_weather (city : string) : string :=
  "The weather in " +:+ city +:+ " is sunny.".

(** The MCP server with its single tool, seen through [call_tool]. *)
Definition weather_server (name : string) (arguments : json)
  : exn + CallToolResult :=
  if name =? "get_weather" then
    match arguments with
    | JObj [("city", JStr city)] =>
        inr {| result_content := [TextContent (get_weather city)] |}
    | _ => inl (Exn "McpError" "Invalid arguments for tool get_weather")
    end
  else inl (Exn "McpError" ("Unknown tool: " +:+ name)).

(** A server that cannot be reached. *)
Definition unreachable_server (name : string) (arguments : json)
  : exn + CallToolResult :=
  inl (Exn "ConnectError" "All connection attempts failed").

Definition weather_catalog : list Tool.t :=
  [Tool.Make "get_weather"
     (Some "Get the weather information for a specified city.")
     (Some (JObj [("type", JStr "object");
                  ("properties", JObj [("city", JObj [("type", JStr "string")])]);
                  ("required", JArr [JStr "city"])]))].

(** An environment whose model answers from a script: the world is the
    list of answers still to give.  The tool server and the outcome of
    closing the session are parameters. *)
Definition scripted_env (tool : string -> json -> exn + CallToolResult)
    (session_exit : exn + bool) : Env :=
  {| World := list (exn + Response.t);
     messages_create := fun _ w =>
       match w with
       | r :: rest => (r, rest)
       | [] => (inl (Exn "APIConnectionError" "Connection error."), [])
       end;
     call_tool := fun _ name arguments w => (tool name arguments, w);
     sse_aenter := fun _ w => (inr (0, 1), w);
     session_aenter := fun _ w => (inr tt, w);
     session_initialize := fun _ w => (inr tt, w);
     session_list_tools := fun _ w => (inr weather_catalog, w);
     session_aexit := fun _ _ w => (session_exit, w);
     sse_aexit := fun _ _ w => (inr false, w) |}.

(** A client that has entered its scoped lifetime against such an
    environment. *)
Definition connected_client (catalog : list Tool.t) : MCPClaudeClient.t :=
  {| MCPClaudeClient.mcp_server_url := default_mcp_server_url;
     MCPClaudeClient.mcp_session := Some {| session_read := 0; session_write := 1 |};
     MCPClaudeClient.sse_connection := Some {| sse_url := default_mcp_server_url |};
     MCPClaudeClient.read_write := Some (0, 1);
     MCPClaudeClient.available_tools := catalog |}.

(** The caller's history is the list object at reference 1. *)
Definition caller_history : loc := 1%positive.

Definition scripted_state (tool : string -> json -> exn + CallToolResult)
    (session_exit : exn + bool) (self : MCPClaudeClient.t)
    (history : list Message.t) (script : list (exn + Response.t))
  : State (scripted_env tool session_exit) :=
  MkState (E := scripted_env tool session_exit)
    script {[ caller_history := history ]} self [].

(** ** What the loops compute *)

(** The system parameter after the separation loop: each system-role
    message overwrites the previous value. *)
Definition system_of (msgs : list Message.t) (init : option Content)
  : option Content :=
  fold_left
    (fun acc msg =>
       if Message.role msg =? "system" then Some (Message.content msg) else acc)
    msgs init.

Definition non_system (msgs : list Message.t) : list Message.t :=
  List.filter (fun msg => negb (Message.role msg =? "system")) msgs.

(** The tool-use blocks of a response, in order: (id, name, input). *)
Definition tool_uses (blocks : list ContentBlock)
  : list (string * string * json) :=
  flat_map
    (fun b =>
       match b with
       | ToolUseBlock tool_id tool_name tool_input =>
           [(tool_id, tool_name, tool_input)]
       | _ => []
       end)
    blocks.

(** The text of the text blocks of a response, in order. *)
Definition texts (blocks : list ContentBlock) : list string :=
  flat_map (fun b => match b with TextBlock text => [text] | _ => [] end) blocks.

Definition concat_strings (l : list string) : string :=
  fold_right String.append "" l.

Definition result_block (use : string * string * json) (out : string)
  : ContentBlock :=
  ToolResultBlock (fst (fst use)) out.

Definition result_id (b : ContentBlock) : option string :=
  match b with
  | ToolResultBlock tool_use_id _ => Some tool_use_id
  | _ => None
  end.

(** The events of one tool round: each tool-use block is announced and,
    when a session exists, sent to it. *)
Definition round_events (session : option ClientSession)
    (uses : list (string * string * json)) : list Event :=
  flat_map
    (fun use =>
       EvPrint (snd (fst use)) (snd use) ::
       match session with
       | Some s => [EvCallTool s (snd (fst use)) (snd use)]
       | None => []
       end)
    uses.

(** The remote tool calls of a trace, in order. *)
Definition dispatched (evs : list Event) : list (string * json) :=
  flat_map
    (fun ev =>
       match ev with
       | EvCallTool _ name arguments => [(name, arguments)]
       | _ => []
       end)
    evs.

(** The completion requests of a trace, in order. *)
Definition requests (evs : list Event) : list Request.t :=
  flat_map (fun ev => match ev with EvCreate req => [req] | _ => [] end) evs.

Definition carries_tool_list (req : Request.t) : bool :=
  match Request.tools req with
  | ToolsList _ => true
  | _ => false
  end.

Definition has_system_role (msgs : list Message.t) : bool :=
  existsb (fun msg => Message.role msg =? "system") msgs.

(** The number of blocks of a response whose [type] is ["tool_use"]. *)
Definition count_tool_use (blocks : list ContentBlock) : nat :=
  length (List.filter (fun b => block_type b =? "tool_use") blocks).

(** The remote call one dispatch makes, when a session exists. *)
Definition call_events (session : option ClientSession) (name : string)
    (arguments : json) : list Event :=
  match session with
  | Some s => [EvCallTool s name arguments]
  | None => []
  end.

(** The first completion request of a run on [history]. *)
Definition first_request (self : MCPClaudeClient.t) (history : list Message.t)
    (model : string) (max_tokens : Z) : Request.t :=
  Request.Make model max_tokens (system_of history None) (non_system history)
    (tools_or_none (_convert_mcp_tools_to_claude_format self)).

(** The working list at the follow-up request: the non-system history,
    the assistant's raw content, and one user message with the results. *)
Definition follow_up_messages (history : list Message.t)
    (response : Response.t) (tool_results : list ContentBlock)
  : list Message.t :=
  non_system history ++
  [Message.Make "assistant" (ContentBlocks (Response.content response));
   Message.Make "user" (ContentBlocks tool_results)].

Definition follow_up_request (history : list Message.t) (model : string)
    (max_tokens : Z) (response : Response.t) (tool_results : list ContentBlock)
  : Request.t :=
  Request.Make model max_tokens (system_of history None)
    (follow_up_messages history response tool_results) ToolsNotGiven.

(** The contents of the system-role messages of a history, in order. *)
Definition system_contents (history : list Message.t) : list Content :=
  map Message.content
      (List.filter (fun msg => Message.role msg =? "system") history).

(** The textual payload of a result item, when it has one. *)
Definition payload (item : ContentItem) : option string :=
  match item with
  | TextContent text => Some text
  | _ => None
  end.

(** The releases recorded in a trace. *)
Definition session_released (evs : list Event) : bool :=
  existsb (fun ev => match ev with EvSessionExit _ _ => true | _ => false end) evs.

Definition connection_released (evs : list Event) : bool :=
  existsb (fun ev => match ev with EvSseExit _ _ => true | _ => false end) evs.

(** *** The statements of the specification, in its own words *)

(** "the descriptor's schema when present, otherwise the placeholder
    schema". *)
Definition spec_input_schema (tool : Tool.t) : json :=
  match Tool.inputSchema tool with
  | None | Some JNull => fallback_schema
  | Some schema => schema
  end.

(** "when the history contains multiple system-role messages, the first
    encountered one is the one used". *)
Definition spec_first_system (history : list Message.t) : option Content :=
  head (system_contents history).

(** *** Concrete runs *)



Definition demo_history : list Message.t :=
  [Message.Make "system" (ContentText "You are a helpful assistant.");
   Message.Make "user" (ContentText "What's the weather like in Tokyo and New York?")].

Definition two_system_history : list Message.t :=
  [Message.Make "system" (ContentText "Answer in English.");
   Message.Make "system" (ContentText "Answer in French.");
   Message.Make "user" (ContentText "Hello")].

Definition asks_two_cities : Response.t :=
  Response.Make (Some "tool_use")
    [TextBlock "Let me check.";
     ToolUseBlock "t1" "get_weather" (JObj [("city", JStr "Tokyo")]);
     ToolUseBlock "t2" "get_weather" (JObj [("city", JStr "New York")])].

Definition asks_tokyo : Response.t :=
  Response.Make (Some "tool_use")
    [ToolUseBlock "t1" "get_weather" (JObj [("city", JStr "Tokyo")])].

Definition sunny_answer : Response.t :=
  Response.Make (Some "end_turn") [TextBlock "It's sunny "; TextBlock "in Tokyo."].

Definition truncated_answer : Response.t :=
  Response.Make (Some "max_tokens") [ThinkingBlock "hmm"; TextBlock "Hello."].

Definition silent_answer : Response.t :=
  Response.Make (Some "end_turn") [].

Definition session_close_error : exn :=
  Exn "ExceptionGroup" "unhandled errors in a TaskGroup".

(** A descriptor whose schema is the empty dict. *)
Definition ping_tool : Tool.t := Tool.Make "ping" None (Some (JObj [])).

Definition tokyo : json := JObj [("city", JStr "Tokyo")].

Definition demo_session : ClientSession :=
  {| session_read := 0; session_write := 1 |}.

Definition demo_connection : SseConnection :=
  {| sse_url := default_mcp_server_url |}.

(** The weather server behind a scripted model. *)
Definition weather_env : Env := scripted_env weather_server (inr false).

(** The same, with a server that cannot be reached. *)
Definition unreachable_env : Env := scripted_env unreachable_server (inr false).

(** The same as [weather_env], but closing the session raises. *)
Definition failing_close_env : Env :=
  scripted_env weather_server (inl session_close_error).

Definition two_cities_state : State weather_env :=
  scripted_state weather_server (inr false) (connected_client weather_catalog)
    demo_history [inr asks_two_cities; inr sunny_answer].

Definition plain_state : State weather_env :=
  scripted_state weather_server (inr false) (connected_client weather_catalog)
    demo_history [inr truncated_answer].

Definition two_system_state : State weather_env :=
  scripted_state weather_server (inr false) (connected_client weather_catalog)
    two_system_history [inr sunny_answer].

Definition empty_catalog_state : State weather_env :=
  scripted_state weather_server (inr false) (connected_client [])
    demo_history [inr sunny_answer].

Definition failing_tool_state : State unreachable_env :=
  scripted_state unreachable_server (inr false)
    (connected_client weather_catalog) demo_history
    [inr asks_tokyo; inr silent_answer].

Definition failing_close_state : State failing_close_env :=
  scripted_state weather_server (inl session_close_error)
    (connected_client weather_catalog) demo_history [].


(** A client object just constructed, before [async with], facing a
    scripted model; no list object exists yet. *)
Definition fresh_client_state (script : list (exn + Response.t))
  : State weather_env :=
  MkState (E := weather_env) script ∅ (__init__ default_mcp_server_url) [].

(** *** What the interactive loop of [main] leaves in its history *)



(** The state in which [__aenter__] runs on a newly constructed client. *)
Definition with_new_client {E : Env} (st : State E) : State E :=
  MkState (world st) (heap st) (__init__ default_mcp_server_url) (trace st).

(** The state of a turn once the user's line is appended, and once the
    assistant's text is appended after it. *)
Definition after_user_line {E : Env} (conversation_history : loc)
    (old : list Message.t) (user_input : string) (st : State E) : State E :=
  MkState (world st)
    (<[conversation_history :=
         old ++ [Message.Make "user" (ContentText user_input)]]> (heap st))
    (self_obj st) (trace st).

Definition after_answer {E : Env} (conversation_history : loc)
    (ms : list Message.t) (response : string) (st : State E) : State E :=
  MkState (world st)
    (<[conversation_history :=
         ms ++ [Message.Make "assistant" (ContentText response)]]> (heap st))
    (self_obj st) (trace st).

(** The first completion request of [main]'s example conversation. *)
Definition demo_request (self : MCPClaudeClient.t) : Request.t :=
  Request.Make "claude-3-5-sonnet-20241022" 1024
    (Some (ContentText "You are a helpful assistant that can check weather information for cities. Use the available tools when users ask about weather."))
    [Message.Make "user"
       (ContentText "What's the weather like in Tokyo and New York?")]
    (tools_or_none (_convert_mcp_tools_to_claude_format self)).

(** *** Concrete inputs for the further properties *)

(** A server whose tool answers with an image first. *)
Definition image_server (name : string) (arguments : json)
  : exn + CallToolResult :=
  inr {| result_content :=
           [ImageContent "iVBORw0KGgo=" "image/png"; TextContent "a chart"] |}.

(** A server whose tool answers with an empty text. *)
Definition silent_server (name : string) (arguments : json)
  : exn + CallToolResult :=
  inr {| result_content := [TextContent ""] |}.

Definition image_env : Env := scripted_env image_server (inr false).
Definition silent_env : Env := scripted_env silent_server (inr false).

Definition handshake_failure : exn := Exn "McpError" "Connection closed".

Definition model_offline : exn := Exn "APIConnectionError" "Connection error.".

(** An environment in which the connection opens but the session's
    initialisation fails. *)
Definition handshake_failure_env : Env :=
  {| World := unit;
     messages_create := fun _ w => (inl model_offline, w);
     call_tool := fun _ name arguments w => (weather_server name arguments, w);
     sse_aenter := fun _ w => (inr (0, 1), w);
     session_aenter := fun _ w => (inr tt, w);
     session_initialize := fun _ w => (inl handshake_failure, w);
     session_list_tools := fun _ w => (inr weather_catalog, w);
     session_aexit := fun _ _ w => (inr false, w);
     sse_aexit := fun _ _ w => (inr false, w) |}.

Definition handshake_failure_state : State handshake_failure_env :=
  MkState (E := handshake_failure_env) tt ∅ (__init__ default_mcp_server_url) [].

(** A client used outside its scoped lifetime. *)
Definition unentered_state : State weather_env :=
  scripted_state weather_server (inr false) (__init__ default_mcp_server_url)
    demo_history [].

Definition image_state : State image_env :=
  scripted_state image_server (inr false) (connected_client weather_catalog)
    demo_history [].

Definition silent_state : State silent_env :=
  scripted_state silent_server (inr false) (connected_client weather_catalog)
    demo_history [].

(** The model cannot be reached. *)
Definition offline_model_state : State weather_env :=
  scripted_state weather_server (inr false) (connected_client weather_catalog)
    demo_history [].

Definition user_only_history : list Message.t :=
  [Message.Make "user" (ContentText "Hello")].

Definition user_only_state : State weather_env :=
  scripted_state weather_server (inr false) (connected_client weather_catalog)
    user_only_history [inr sunny_answer].

(** A response that stops for tool use without any tool-use block. *)
Definition asks_nothing : Response.t :=
  Response.Make (Some "tool_use") [TextBlock "Let me think."].

Definition no_block_state : State weather_env :=
  scripted_state weather_server (inr false) (connected_client weather_catalog)
    demo_history [inr asks_nothing; inr sunny_answer].

Definition failing_close_new_state : State failing_close_env :=
  MkState (E := failing_close_env) [inr sunny_answer] ∅
    (__init__ default_mcp_server_url) [].

(** Three lines for the interactive loop and one that is never read; the
    model answers the first turn only. *)
Definition loop_inputs : list string :=
  ["Hello"; "And tomorrow?"; "QUIT"; "never read"].

Definition loop_state : State weather_env :=
  scripted_state weather_server (inr false) (connected_client weather_catalog)
    [weather_system_message] [inr sunny_answer].

(** ** Properties *)

Section Properties.

Context {E : Env}.

Ltac run :=
  unfold bind, ret, raise, try_except, get_self, set_self, log, external,
    new_list, list_literal, read_list, list_append; simpl.

(** *** Strings *)

Lemma string_app_cons (ch : Ascii.ascii) (a b : string) :
  String ch a +:+ b = String ch (a +:+ b).
Proof. reflexivity. Qed.

Lemma string_app_assoc (a b c : string) : (a +:+ b) +:+ c = a +:+ (b +:+ c).
Proof.
  induction a as [|ch a IH]; [reflexivity |].
  rewrite !string_app_cons. now rewrite IH.
Qed.

Lemma string_app_nil_r (a : string) : a +:+ "" = a.
Proof.
  induction a as [|ch a IH]; [reflexivity |].
  rewrite string_app_cons. now rewrite IH.
Qed.

Lemma string_app_nonempty_l (a b : string) : a <> "" -> a +:+ b <> "".
Proof.
  destruct a as [|ch a]; [congruence |].
  intros _. rewrite string_app_cons. discriminate.
Qed.

(** *** The pure loops *)

Lemma convert_loop_spec (tools : list Tool.t) (acc : list ClaudeTool.t) :
  convert_loop tools acc = acc ++ map claude_tool_of tools.
Proof.
  revert acc. induction tools as [|tool rest IH]; intros acc; simpl.
  - now rewrite app_nil_r.
  - rewrite IH, <- app_assoc. reflexivity.
Qed.

Lemma convert_spec (self : MCPClaudeClient.t) :
  _convert_mcp_tools_to_claude_format self =
  map claude_tool_of (MCPClaudeClient.available_tools self).
Proof. unfold _convert_mcp_tools_to_claude_format. now rewrite convert_loop_spec. Qed.

Lemma text_loop_spec (blocks : list ContentBlock) (acc : string) :
  text_loop blocks acc = acc +:+ concat_strings (texts blocks).
Proof.
  revert acc. induction blocks as [|b rest IH]; intros acc; simpl.
  - now rewrite string_app_nil_r.
  - destruct b; simpl; rewrite IH; try reflexivity.
    now rewrite string_app_assoc.
Qed.

Lemma non_system_no_system (msgs : list Message.t) :
  has_system_role (non_system msgs) = false.
Proof.
  induction msgs as [|m rest IH]; simpl; [reflexivity |].
  destruct (Message.role m =? "system") eqn:Hr; simpl; [exact IH |].
  now rewrite Hr.
Qed.

Lemma has_system_role_app (l1 l2 : list Message.t) :
  has_system_role (l1 ++ l2) = has_system_role l1 || has_system_role l2.
Proof. unfold has_system_role. apply existsb_app. Qed.

(** *** The separation loop *)

Lemma separate_loop_spec (msgs : list Message.t) :
  forall (sys : option Content) (conv : loc) (cm : list Message.t) (st : State E),
    heap st !! conv = Some cm ->
    separate_loop msgs sys conv st =
    (inr (system_of msgs sys),
     MkState (world st) (<[conv := cm ++ non_system msgs]> (heap st))
             (self_obj st) (trace st)).
Proof.
  induction msgs as [|m rest IH]; intros sys conv cm [w h self tr] Hc; simpl in *.
  - run. rewrite app_nil_r, insert_id by exact Hc. reflexivity.
  - destruct (Message.role m =? "system") eqn:Hr; simpl.
    + now apply IH.
    + run. rewrite Hc.
      erewrite IH by (simpl; apply lookup_insert_eq). simpl.
      rewrite insert_insert_eq, <- app_assoc. reflexivity.
Qed.

(** *** The dispatcher never raises *)

Lemma execute_total (name : string) (arguments : json) (st : State E) :
  exists (out : string) (w' : World E),
    _execute_mcp_tool E name arguments st =
    (inr out,
     MkState w' (heap st) (self_obj st)
       (trace st ++ call_events (MCPClaudeClient.mcp_session (self_obj st))
                                name arguments)).
Proof.
  destruct st as [w h self tr]. unfold _execute_mcp_tool, session_call_tool. run.
  destruct (MCPClaudeClient.mcp_session self) as [s|]; simpl.
  - destruct (call_tool E s name arguments w) as [[e|res] w'] eqn:Hcall; simpl.
    + eauto.
    + destruct (result_content res) as [|item items]; simpl; [eauto |].
      destruct item; simpl; eauto.
  - rewrite app_nil_r. eauto.
Qed.

Lemma tool_loop_spec (blocks : list ContentBlock) :
  forall (acc : list ContentBlock) (st : State E),
  exists (outs : list string) (w' : World E),
    length outs = length (tool_uses blocks) /\
    tool_loop E blocks acc st =
    (inr (acc ++ zip_with result_block (tool_uses blocks) outs),
     MkState w' (heap st) (self_obj st)
       (trace st ++ round_events (MCPClaudeClient.mcp_session (self_obj st))
                                 (tool_uses blocks))).
Proof.
  induction blocks as [|b rest IH]; intros acc st.
  - exists [], (world st). destruct st; simpl. run. now rewrite !app_nil_r.
  - destruct b as [t | tid tname tinput | rid rc | th]; simpl;
      try apply IH.
    destruct (execute_total tname tinput
                (MkState (world st) (heap st) (self_obj st)
                         (trace st ++ [EvPrint tname tinput])))
      as (out & w1 & Hexec).
    destruct (IH (acc ++ [ToolResultBlock tid out])
                (MkState w1 (heap st) (self_obj st)
                   ((trace st ++ [EvPrint tname tinput]) ++
                    call_events (MCPClaudeClient.mcp_session (self_obj st))
                                tname tinput)))
      as (outs & w2 & Hlen & Hloop).
    exists (out :: outs), w2. split; [simpl; now rewrite Hlen |].
    destruct st as [w h self tr]. simpl in *.
    unfold bind at 1. unfold log at 1. simpl.
    unfold bind at 1. rewrite Hexec. rewrite Hloop.
    unfold result_block at 2. simpl.
    rewrite <- !app_assoc. reflexivity.
Qed.

(** *** The two phases of [chat_with_tools] *)

Lemma fresh_ne (h : gmap loc (list Message.t)) (l : loc) (v : list Message.t) :
  h !! l = Some v -> fresh (dom h) <> l.
Proof.
  intros Hl Heq. apply (is_fresh (dom h)). rewrite Heq.
  apply elem_of_dom. eauto.
Qed.

Lemma chat_first_phase (messages : loc) (model : string) (max_tokens : Z)
    (history : list Message.t) (st : State E) :
  heap st !! messages = Some history ->
  chat_with_tools E messages model max_tokens st =
  let conv := fresh (dom (heap st)) in
  let req1 := first_request (self_obj st) history model max_tokens in
  let '(r, w1) := messages_create E req1 (world st) in
  let st1 := MkState w1 (<[conv := non_system history]> (heap st))
                     (self_obj st) (trace st ++ [EvCreate req1]) in
  match r with
  | inl e => (inl e, st1)
  | inr response =>
      if is_tool_use response then
        tool_use_branch E conv model max_tokens (system_of history None)
                        response st1
      else (inr (text_loop (Response.content response) ""), st1)
  end.
Proof.
  intros Hm. destruct st as [w h self tr]. simpl in *.
  pose proof (fresh_ne h messages history Hm) as Hne.
  unfold chat_with_tools.
  unfold bind at 1. unfold get_self at 1. simpl.
  unfold bind at 1. unfold new_list, list_literal at 1. simpl.
  unfold bind at 1. unfold read_list at 1. simpl.
  rewrite lookup_insert_ne by exact Hne. rewrite Hm.
  unfold bind at 1.
  erewrite separate_loop_spec by (simpl; apply lookup_insert_eq). simpl.
  rewrite insert_insert_eq.
  unfold bind at 1. unfold create at 1.
  unfold bind at 1. unfold read_list at 1. simpl.
  rewrite lookup_insert_eq. unfold external at 1. simpl.
  unfold first_request.
  destruct (messages_create E _ w) as [[e|response] w1]; [reflexivity |].
  destruct (is_tool_use response); reflexivity.
Qed.

Lemma tool_use_branch_spec (conv : loc) (model : string) (max_tokens : Z)
    (sys : option Content) (response : Response.t) (cm : list Message.t)
    (st1 : State E) :
  heap st1 !! conv = Some cm ->
  exists (outs : list string) (w2 : World E),
    length outs = length (tool_uses (Response.content response)) /\
    forall r w3,
      messages_create E
        (Request.Make model max_tokens sys
           (cm ++ [Message.Make "assistant"
                     (ContentBlocks (Response.content response));
                   Message.Make "user"
                     (ContentBlocks
                        (zip_with result_block
                           (tool_uses (Response.content response)) outs))])
           ToolsNotGiven) w2 = (r, w3) ->
      tool_use_branch E conv model max_tokens sys response st1 =
      (match r with
       | inl e => inl e
       | inr final_response =>
           inr (text_loop (Response.content final_response) "")
       end,
       MkState w3
         (<[conv := cm ++ [Message.Make "assistant"
                             (ContentBlocks (Response.content response));
                           Message.Make "user"
                             (ContentBlocks
                                (zip_with result_block
                                   (tool_uses (Response.content response))
                                   outs))]]> (heap st1))
         (self_obj st1)
         (trace st1 ++
          round_events (MCPClaudeClient.mcp_session (self_obj st1))
                       (tool_uses (Response.content response)) ++
          [EvCreate
             (Request.Make model max_tokens sys
                (cm ++ [Message.Make "assistant"
                          (ContentBlocks (Response.content response));
                        Message.Make "user"
                          (ContentBlocks
                             (zip_with result_block
                                (tool_uses (Response.content response)) outs))])
                ToolsNotGiven)])).
Proof.
  intros Hc. destruct st1 as [w1 h self tr]. simpl in *.
  destruct (tool_loop_spec (Response.content response) []
              (MkState w1
                 (<[conv := cm ++ [Message.Make "assistant"
                                     (ContentBlocks (Response.content response))]]> h)
                 self tr))
    as (outs & w2 & Hlen & Hloop).
  exists outs, w2. split; [exact Hlen |].
  intros r w3 Hcreate.
  unfold tool_use_branch.
  unfold bind at 1. unfold list_append at 1. simpl. rewrite Hc.
  unfold bind at 1. rewrite Hloop. simpl.
  unfold bind at 1. unfold list_append at 1. simpl. rewrite lookup_insert_eq.
  unfold bind at 1. unfold create at 1.
  unfold bind at 1. unfold read_list at 1. simpl. rewrite lookup_insert_eq.
  rewrite !insert_insert_eq. rewrite <- !app_assoc. simpl.
  unfold external at 1. simpl. rewrite Hcreate.
  destruct r as [e|final_response]; simpl; rewrite <- !app_assoc; reflexivity.
Qed.

(** The three ways a run can go, by the answer to the first request. *)

Lemma chat_first_raises (messages : loc) (model : string) (max_tokens : Z)
    (history : list Message.t) (st : State E) (e : exn) (w1 : World E) :
  heap st !! messages = Some history ->
  messages_create E (first_request (self_obj st) history model max_tokens)
                  (world st) = (inl e, w1) ->
  chat_with_tools E messages model max_tokens st =
  (inl e,
   MkState w1 (<[fresh (dom (heap st)) := non_system history]> (heap st))
     (self_obj st)
     (trace st ++ [EvCreate (first_request (self_obj st) history model max_tokens)])).
Proof.
  intros Hm Hc. rewrite (chat_first_phase _ _ _ history) by exact Hm.
  simpl. rewrite Hc. reflexivity.
Qed.

Lemma chat_plain (messages : loc) (model : string) (max_tokens : Z)
    (history : list Message.t) (st : State E) (response : Response.t)
    (w1 : World E) :
  heap st !! messages = Some history ->
  messages_create E (first_request (self_obj st) history model max_tokens)
                  (world st) = (inr response, w1) ->
  is_tool_use response = false ->
  chat_with_tools E messages model max_tokens st =
  (inr (text_loop (Response.content response) ""),
   MkState w1 (<[fresh (dom (heap st)) := non_system history]> (heap st))
     (self_obj st)
     (trace st ++ [EvCreate (first_request (self_obj st) history model max_tokens)])).
Proof.
  intros Hm Hc Ht. rewrite (chat_first_phase _ _ _ history) by exact Hm.
  simpl. rewrite Hc, Ht. reflexivity.
Qed.

Lemma chat_tool_use (messages : loc) (model : string) (max_tokens : Z)
    (history : list Message.t) (st : State E) (response : Response.t)
    (w1 : World E) :
  heap st !! messages = Some history ->
  messages_create E (first_request (self_obj st) history model max_tokens)
                  (world st) = (inr response, w1) ->
  is_tool_use response = true ->
  exists (outs : list string) (w2 : World E),
    length outs = length (tool_uses (Response.content response)) /\
    forall r w3,
      messages_create E
        (follow_up_request history model max_tokens response
           (zip_with result_block (tool_uses (Response.content response)) outs))
        w2 = (r, w3) ->
      chat_with_tools E messages model max_tokens st =
      (match r with
       | inl e => inl e
       | inr final_response =>
           inr (text_loop (Response.content final_response) "")
       end,
       MkState w3
         (<[fresh (dom (heap st)) :=
              follow_up_messages history response
                (zip_with result_block
                   (tool_uses (Response.content response)) outs)]> (heap st))
         (self_obj st)
         (trace st ++
          [EvCreate (first_request (self_obj st) history model max_tokens)] ++
          round_events (MCPClaudeClient.mcp_session (self_obj st))
                       (tool_uses (Response.content response)) ++
          [EvCreate
             (follow_up_request history model max_tokens response
                (zip_with result_block
                   (tool_uses (Response.content response)) outs))])).
Proof.
  intros Hm Hc Ht. rewrite (chat_first_phase _ _ _ history) by exact Hm.
  simpl. rewrite Hc, Ht.
  destruct (tool_use_branch_spec (fresh (dom (heap st))) model max_tokens
              (system_of history None) response (non_system history)
              (MkState w1
                 (<[fresh (dom (heap st)) := non_system history]> (heap st))
                 (self_obj st)
                 (trace st ++
                  [EvCreate (first_request (self_obj st) history model
                                           max_tokens)])))
    as (outs & w2 & Hlen & Hrun); [simpl; apply lookup_insert_eq |].
  exists outs, w2. split; [exact Hlen |].
  intros r w3 Hcreate.
  unfold follow_up_request, follow_up_messages in *.
  rewrite (Hrun r w3 Hcreate). simpl.
  rewrite insert_insert_eq, <- !app_assoc. reflexivity.
Qed.

(** *** The tool catalog adapter *)

Lemma description_or_empty_spec (d : option string) :
  description_or_empty d = from_option id "" d.
Proof.
  destruct d as [s|]; simpl; [| reflexivity].
  destruct (s =? "") eqn:Hs; [| reflexivity].
  apply String.eqb_eq in Hs. now subst.
Qed.

Lemma truthy_not_null (v : json) : truthy v = true -> v <> JNull.
Proof. intros Ht ->. discriminate. Qed.

(** C2 (as amended): for every catalog, including the empty one, the
    adapter produces exactly one entry per descriptor, in the same order
    and with the same name; the description is the descriptor's, or the
    empty string when it is absent; the input schema is never null: it is
    the descriptor's schema when that attribute exists and is truthy (a
    non-empty dict), and the placeholder [{type: object, properties: {}}]
    otherwise, which includes a schema that is the empty dict. *)
Theorem convert_one_entry_per_descriptor (self : MCPClaudeClient.t) :
  Forall2
    (fun tool entry =>
       ClaudeTool.name entry = Tool.name tool /\
       ClaudeTool.description entry = from_option id "" (Tool.description tool) /\
       ClaudeTool.input_schema entry <> JNull /\
       ClaudeTool.input_schema entry =
         (if schema_available tool
          then from_option id JNull (Tool.inputSchema tool)
          else JObj [("type", JStr "object"); ("properties", JObj [])]))
    (MCPClaudeClient.available_tools self)
    (_convert_mcp_tools_to_claude_format self).
Proof.
  rewrite convert_spec.
  induction (MCPClaudeClient.available_tools self) as [|tool rest IH]; simpl.
  - constructor.
  - constructor; [| exact IH].
    unfold claude_tool_of, schema_available; simpl.
    rewrite description_or_empty_spec.
    destruct (Tool.inputSchema tool) as [schema|]; simpl.
    + destruct (truthy schema) eqn:Ht; repeat split; try discriminate.
      now apply truthy_not_null.
    + repeat split. discriminate.
Qed.

(** *** The tool dispatcher *)

(** C4: when the remote call raises, the dispatcher returns the string
    "Error executing tool {name}: {message}" as a normal result; nothing
    is raised past it. *)
Theorem execute_catches_failure (name : string) (arguments : json)
    (st : State E) (s : ClientSession) (e : exn) (w' : World E) :
  MCPClaudeClient.mcp_session (self_obj st) = Some s ->
  call_tool E s name arguments (world st) = (inl e, w') ->
  _execute_mcp_tool E name arguments st =
  (inr ("Error executing tool " +:+ name +:+ ": " +:+ exn_str e),
   MkState w' (heap st) (self_obj st)
           (trace st ++ [EvCallTool s name arguments])).
Proof.
  intros Hs Hcall. destruct st as [w h self tr]. simpl in *.
  unfold _execute_mcp_tool, session_call_tool. run.
  rewrite Hs. simpl. rewrite Hcall. reflexivity.
Qed.


(** A first element without a [text] attribute ends in the error string:
    the attribute error is caught like any other exception. *)
Lemma execute_first_item_without_text (name : string) (arguments : json)
    (st : State E) (s : ClientSession) (result : CallToolResult) (w' : World E)
    (item : ContentItem) :
  MCPClaudeClient.mcp_session (self_obj st) = Some s ->
  call_tool E s name arguments (world st) = (inr result, w') ->
  result_content result !! 0%nat = Some item ->
  payload item = None ->
  fst (_execute_mcp_tool E name arguments st) =
  inr (error_message name
         (Exn "AttributeError"
              ("'" +:+ item_class item +:+ "' object has no attribute 'text'"))).
Proof.
  intros Hs Hcall Hitem Hpay. destruct st as [w h self tr]. simpl in *.
  unfold _execute_mcp_tool, session_call_tool. run.
  rewrite Hs. simpl. rewrite Hcall. simpl.
  destruct (result_content result) as [|first others]; [discriminate |].
  simpl in Hitem. injection Hitem as ->.
  destruct item; simpl in Hpay; try discriminate; reflexivity.
Qed.

(** *** The orchestrator *)

Lemma is_tool_use_true (response : Response.t) :
  Response.stop_reason response = Some "tool_use" -> is_tool_use response = true.
Proof. unfold is_tool_use. now intros ->. Qed.

Lemma is_tool_use_false (response : Response.t) :
  Response.stop_reason response <> Some "tool_use" -> is_tool_use response = false.
Proof.
  unfold is_tool_use. intros Hne.
  destruct (Response.stop_reason response) as [r|]; [| reflexivity].
  destruct (r =? "tool_use") eqn:Hr; [| reflexivity].
  apply String.eqb_eq in Hr. now subst.
Qed.

(** C3: when the first response does not stop for tool use, the run makes
    that one completion request and nothing else (no tool dispatch, no
    second request), and returns the text of the response's text blocks
    concatenated in order, which is the empty string when there is none. *)
Theorem chat_plain_completion (messages : loc) (model : string)
    (max_tokens : Z) (history : list Message.t) (st : State E)
    (response : Response.t) (w1 : World E) :
  heap st !! messages = Some history ->
  messages_create E (first_request (self_obj st) history model max_tokens)
                  (world st) = (inr response, w1) ->
  Response.stop_reason response <> Some "tool_use" ->
  fst (chat_with_tools E messages model max_tokens st) =
    inr (concat_strings (texts (Response.content response))) /\
  trace (snd (chat_with_tools E messages model max_tokens st)) =
    trace st ++ [EvCreate (first_request (self_obj st) history model max_tokens)] /\
  (texts (Response.content response) = [] ->
   fst (chat_with_tools E messages model max_tokens st) = inr "").
Proof.
  intros Hm Hc Hstop.
  rewrite (chat_plain _ _ _ history st response w1 Hm Hc
             (is_tool_use_false _ Hstop)).
  simpl. rewrite text_loop_spec. simpl.
  split; [reflexivity | split; [reflexivity |]].
  now intros ->.
Qed.

(** *** Traces of a tool round *)

Lemma requests_app (evs1 evs2 : list Event) :
  requests (evs1 ++ evs2) = requests evs1 ++ requests evs2.
Proof. unfold requests. apply flat_map_app. Qed.

Lemma requests_round_events (session : option ClientSession)
    (uses : list (string * string * json)) :
  requests (round_events session uses) = [].
Proof.
  induction uses as [|use rest IH]; simpl; [reflexivity |].
  rewrite requests_app, IH. now destruct session.
Qed.

Lemma dispatched_round_events (s : ClientSession)
    (uses : list (string * string * json)) :
  dispatched (round_events (Some s) uses) =
  map (fun use => (snd (fst use), snd use)) uses.
Proof.
  induction uses as [|use rest IH]; simpl; [reflexivity |].
  now rewrite IH.
Qed.

Lemma tool_uses_length (blocks : list ContentBlock) :
  length (tool_uses blocks) = count_tool_use blocks.
Proof.
  unfold count_tool_use.
  induction blocks as [|b rest IH]; simpl; [reflexivity |].
  destruct b; simpl; now rewrite ?IH.
Qed.

Lemma result_blocks_ids (uses : list (string * string * json)) :
  forall outs : list string,
    length outs = length uses ->
    length (zip_with result_block uses outs) = length uses /\
    map result_id (zip_with result_block uses outs) =
    map (fun use => Some (fst (fst use))) uses.
Proof.
  induction uses as [|use rest IH]; intros [|out outs] Hlen;
    simpl in *; try discriminate; [split; reflexivity |].
  destruct (IH outs) as [Hl Hi]; [lia |].
  now rewrite Hl, Hi.
Qed.

Lemma system_of_spec (msgs : list Message.t) (init : option Content) :
  system_of msgs init =
  match last (system_contents msgs) with
  | Some c => Some c
  | None => init
  end.
Proof.
  revert init. induction msgs as [|m rest IH]; intros init; [reflexivity |].
  unfold system_of, system_contents in *. simpl.
  rewrite IH.
  destruct (Message.role m =? "system"); simpl; [| reflexivity].
  rewrite last_cons.
  now destruct (last (map Message.content (List.filter _ rest))).
Qed.

Lemma system_of_last (history : list Message.t) :
  system_of history None = last (system_contents history).
Proof. rewrite system_of_spec. now destruct (last (system_contents history)). Qed.

(** Every run, however it ends, allocates one working list, leaves
    [self] alone and issues the first request, and after a tool round the
    follow-up request. *)
Lemma chat_summary (messages : loc) (model : string) (max_tokens : Z)
    (history : list Message.t) (st : State E) :
  heap st !! messages = Some history ->
  exists (cm : list Message.t) (evs : list Event),
    heap (snd (chat_with_tools E messages model max_tokens st)) =
      <[fresh (dom (heap st)) := cm]> (heap st) /\
    self_obj (snd (chat_with_tools E messages model max_tokens st)) =
      self_obj st /\
    trace (snd (chat_with_tools E messages model max_tokens st)) =
      trace st ++ evs /\
    (requests evs = [first_request (self_obj st) history model max_tokens] \/
     exists response tool_results,
       requests evs =
       [first_request (self_obj st) history model max_tokens;
        follow_up_request history model max_tokens response tool_results]).
Proof.
  intros Hm.
  destruct (messages_create E
              (first_request (self_obj st) history model max_tokens) (world st))
    as [[e|response] w1] eqn:Hc.
  - rewrite (chat_first_raises _ _ _ history st e w1 Hm Hc). simpl.
    eexists _, _. repeat split. now left.
  - destruct (is_tool_use response) eqn:Ht.
    + destruct (chat_tool_use _ _ _ history st response w1 Hm Hc Ht)
        as (outs & w2 & Hlen & Hrun).
      destruct (messages_create E
                  (follow_up_request history model max_tokens response
                     (zip_with result_block
                        (tool_uses (Response.content response)) outs)) w2)
        as [r w3] eqn:Hc2.
      rewrite (Hrun r w3 eq_refl). simpl.
      eexists _, _. repeat split. right. eexists _, _.
      simpl. rewrite requests_app, requests_round_events. reflexivity.
    + rewrite (chat_plain _ _ _ history st response w1 Hm Hc Ht). simpl.
      eexists _, _. repeat split. now left.
Qed.

(** C1: when the first response stops for tool use and holds N tool-use
    blocks, the run dispatches exactly N tool calls, in the order of the
    blocks, between the two completion requests; the follow-up request's
    messages are the working history, the assistant's raw content and one
    user message whose N tool-result entries carry, in order, the ids of
    the tool-use blocks; the follow-up request has the same model,
    max-tokens and system parameters and no tool list. *)
Theorem chat_tool_round (messages : loc) (model : string) (max_tokens : Z)
    (history : list Message.t) (st : State E) (s : ClientSession)
    (response : Response.t) (w1 : World E) :
  heap st !! messages = Some history ->
  MCPClaudeClient.mcp_session (self_obj st) = Some s ->
  messages_create E (first_request (self_obj st) history model max_tokens)
                  (world st) = (inr response, w1) ->
  Response.stop_reason response = Some "tool_use" ->
  exists (evs : list Event) (tool_results : list ContentBlock)
         (req2 : Request.t),
    trace (snd (chat_with_tools E messages model max_tokens st)) =
      trace st ++
      [EvCreate (first_request (self_obj st) history model max_tokens)] ++
      evs ++ [EvCreate req2] /\
    requests evs = [] /\
    dispatched evs =
      map (fun use => (snd (fst use), snd use))
          (tool_uses (Response.content response)) /\
    length (dispatched evs) = count_tool_use (Response.content response) /\
    Request.messages req2 =
      non_system history ++
      [Message.Make "assistant" (ContentBlocks (Response.content response));
       Message.Make "user" (ContentBlocks tool_results)] /\
    length tool_results = count_tool_use (Response.content response) /\
    map result_id tool_results =
      map (fun use => Some (fst (fst use)))
          (tool_uses (Response.content response)) /\
    Request.model req2 = model /\
    Request.max_tokens req2 = max_tokens /\
    Request.system req2 =
      Request.system (first_request (self_obj st) history model max_tokens) /\
    Request.tools req2 = ToolsNotGiven.
Proof.
  intros Hm Hs Hc Hstop.
  destruct (chat_tool_use _ _ _ history st response w1 Hm Hc
              (is_tool_use_true _ Hstop)) as (outs & w2 & Hlen & Hrun).
  destruct (messages_create E
              (follow_up_request history model max_tokens response
                 (zip_with result_block
                    (tool_uses (Response.content response)) outs)) w2)
    as [r w3] eqn:Hc2.
  rewrite (Hrun r w3 eq_refl). simpl. rewrite Hs.
  destruct (result_blocks_ids _ outs Hlen) as [Hl Hi].
  eexists _, _, _. split; [reflexivity |].
  split; [apply requests_round_events |].
  split; [apply dispatched_round_events |].
  split; [rewrite dispatched_round_events, length_map; apply tool_uses_length |].
  split; [reflexivity |].
  split; [rewrite Hl; apply tool_uses_length |].
  split; [exact Hi |].
  repeat split.
Qed.



(** C7 (as amended): no completion request of a run carries a system-role
    message in its messages; every one of them carries, as its separate
    system parameter, the content of the last system-role message of the
    history (nothing when the history has none). *)
Theorem chat_system_parameter (messages : loc) (model : string)
    (max_tokens : Z) (history : list Message.t) (st : State E) :
  heap st !! messages = Some history ->
  exists evs : list Event,
    trace (snd (chat_with_tools E messages model max_tokens st)) =
      trace st ++ evs /\
    requests evs <> [] /\
    Forall
      (fun req =>
         has_system_role (Request.messages req) = false /\
         Request.system req = last (system_contents history))
      (requests evs).
Proof.
  intros Hm.
  destruct (chat_summary messages model max_tokens history st Hm)
    as (cm & evs & _ & _ & Htr & Hreq).
  exists evs. split; [exact Htr |].
  assert (Hfirst :
    has_system_role
      (Request.messages (first_request (self_obj st) history model max_tokens))
      = false /\
    Request.system (first_request (self_obj st) history model max_tokens)
      = last (system_contents history)).
  { simpl. split; [apply non_system_no_system | apply system_of_last]. }
  destruct Hreq as [-> | (response & tool_results & ->)].
  - split; [discriminate |]. constructor; [exact Hfirst | constructor].
  - split; [discriminate |].
    constructor; [exact Hfirst |]. constructor; [| constructor].
    split; simpl.
    + unfold follow_up_messages.
      rewrite has_system_role_app, non_system_no_system. reflexivity.
    + apply system_of_last.
Qed.

(** C8: with an empty cached catalog, no completion request of a run
    carries a tool list: the first one passes [None] for it (not an empty
    list), and a follow-up request never has one. *)
Theorem chat_empty_catalog_no_tool_list (messages : loc) (model : string)
    (max_tokens : Z) (history : list Message.t) (st : State E) :
  heap st !! messages = Some history ->
  MCPClaudeClient.available_tools (self_obj st) = [] ->
  exists evs : list Event,
    trace (snd (chat_with_tools E messages model max_tokens st)) =
      trace st ++ evs /\
    requests evs <> [] /\
    Forall (fun req => carries_tool_list req = false) (requests evs) /\
    (Request.tools <$> head (requests evs)) = Some ToolsNone.
Proof.
  intros Hm Hcat.
  destruct (chat_summary messages model max_tokens history st Hm)
    as (cm & evs & _ & _ & Htr & Hreq).
  exists evs. split; [exact Htr |].
  assert (Hfirst :
    Request.tools (first_request (self_obj st) history model max_tokens)
    = ToolsNone).
  { unfold first_request, _convert_mcp_tools_to_claude_format.
    rewrite Hcat. reflexivity. }
  assert (Hno :
    carries_tool_list (first_request (self_obj st) history model max_tokens)
    = false).
  { unfold carries_tool_list. now rewrite Hfirst. }
  destruct Hreq as [-> | (response & tool_results & ->)].
  - split; [discriminate |]. split; [| simpl; f_equal; exact Hfirst].
    constructor; [exact Hno | constructor].
  - split; [discriminate |]. split; [| simpl; f_equal; exact Hfirst].
    constructor; [exact Hno |]. constructor; [reflexivity | constructor].
Qed.

(** C10: a run never changes the caller's list object: it holds the same
    messages afterwards, whether the run returns or raises; the only list
    object that differs from before is the working list the run
    allocates. *)
Theorem chat_preserves_caller_history (messages : loc) (model : string)
    (max_tokens : Z) (history : list Message.t) (st : State E) :
  heap st !! messages = Some history ->
  heap (snd (chat_with_tools E messages model max_tokens st)) !! messages =
    Some history /\
  heap st !! fresh (dom (heap st)) = None /\
  forall l : loc,
    l <> fresh (dom (heap st)) ->
    heap (snd (chat_with_tools E messages model max_tokens st)) !! l =
    heap st !! l.
Proof.
  intros Hm.
  destruct (chat_summary messages model max_tokens history st Hm)
    as (cm & evs & Hheap & _).
  rewrite Hheap. split; [| split].
  - rewrite lookup_insert_ne; [exact Hm |].
    now apply (fresh_ne _ _ history).
  - apply not_elem_of_dom, is_fresh.
  - intros l Hl. now rewrite lookup_insert_ne.
Qed.

(** *** The session lifetime *)

(** After a successful [__aenter__] the connection was acquired first and
    the session second, and [self] holds both handles. *)
Lemma aenter_acquires (st : State E) (st' : State E) :
  __aenter__ E st = (inr tt, st') ->
  exists (rw : nat * nat),
    let c := {| sse_url := MCPClaudeClient.mcp_server_url (self_obj st) |} in
    let s := {| session_read := fst rw; session_write := snd rw |} in
    trace st' =
      trace st ++ [EvSseEnter c; EvSessionEnter s; EvInitialize s; EvListTools s] /\
    MCPClaudeClient.sse_connection (self_obj st') = Some c /\
    MCPClaudeClient.mcp_session (self_obj st') = Some s.
Proof.
  destruct st as [w h self tr]. unfold __aenter__. run.
  destruct (sse_aenter E _ w) as [[e|rw] w1]; [discriminate |]. simpl.
  destruct (session_aenter E _ w1) as [[e|u1] w2]; [discriminate |]. simpl.
  destruct (session_initialize E _ w2) as [[e|u2] w3]; [discriminate |]. simpl.
  destruct (session_list_tools E _ w3) as [[e|tools] w4]; [discriminate |]. simpl.
  intros [= <-]. exists rw. simpl. rewrite <- !app_assoc. repeat split.
Qed.

Lemma aexit_trace (exc : ExcInfo) (st : State E)
    (s : ClientSession) (c : SseConnection) (suppress : bool) (w1 : World E) :
  MCPClaudeClient.mcp_session (self_obj st) = Some s ->
  MCPClaudeClient.sse_connection (self_obj st) = Some c ->
  session_aexit E s exc (world st) = (inr suppress, w1) ->
  trace (snd (__aexit__ E exc st)) =
    trace st ++ [EvSessionExit s exc; EvSseExit c exc].
Proof.
  intros Hs Hconn Hexit. destruct st as [w h self tr]. simpl in *.
  unfold __aexit__. run. rewrite Hs. run. rewrite Hexit. simpl.
  rewrite Hconn. run.
  destruct (sse_aexit E c exc w1) as [[e|b] w2]; simpl;
    rewrite <- app_assoc; reflexivity.
Qed.

(** When releasing the session raises, [__aexit__] stops there. *)
Lemma aexit_session_raises (exc : ExcInfo) (st : State E)
    (s : ClientSession) (e : exn) (w1 : World E) :
  MCPClaudeClient.mcp_session (self_obj st) = Some s ->
  session_aexit E s exc (world st) = (inl e, w1) ->
  __aexit__ E exc st =
  (inl e, MkState w1 (heap st) (self_obj st) (trace st ++ [EvSessionExit s exc])).
Proof.
  intros Hs Hexit. destruct st as [w h self tr]. simpl in *.
  unfold __aexit__. run. rewrite Hs. run. rewrite Hexit. reflexivity.
Qed.

Lemma async_with_final_state {A : Type} (body : M E A) (st st1 st2 : State E)
    (r : exn + A) :
  __aenter__ E st = (inr tt, st1) ->
  body st1 = (r, st2) ->
  snd (async_with E body st) = snd (__aexit__ E (exit_info r) st2).
Proof.
  intros Henter Hbody. unfold async_with. rewrite Henter, Hbody.
  now destruct (__aexit__ E (exit_info r) st2) as [[e|u] st3].
Qed.

(** C9 (as amended): on every exit path of the scoped lifetime (the body
    returns, or raises), [__aexit__] runs with the body's outcome and
    releases the MCP session first and, provided that release does not
    itself raise, the SSE connection right after it: both are released,
    in reverse order of their acquisition by [__aenter__]. *)
Theorem scoped_lifetime_releases_in_reverse_order {A : Type} (body : M E A)
    (st st1 st2 : State E) (r : exn + A) (s : ClientSession)
    (c : SseConnection) (suppress : bool) (w3 : World E) :
  __aenter__ E st = (inr tt, st1) ->
  body st1 = (r, st2) ->
  self_obj st2 = self_obj st1 ->
  MCPClaudeClient.mcp_session (self_obj st1) = Some s ->
  MCPClaudeClient.sse_connection (self_obj st1) = Some c ->
  session_aexit E s (exit_info r) (world st2) = (inr suppress, w3) ->
  trace st1 =
    trace st ++ [EvSseEnter c; EvSessionEnter s; EvInitialize s; EvListTools s] /\
  trace (snd (async_with E body st)) =
    trace st2 ++ [EvSessionExit s (exit_info r); EvSseExit c (exit_info r)].
Proof.
  intros Henter Hbody Hself Hs Hconn Hexit. split.
  - destruct (aenter_acquires st st1 Henter) as (rw & Htr & Hc' & Hs').
    rewrite Hconn in Hc'. rewrite Hs in Hs'.
    injection Hc' as ->. injection Hs' as ->. exact Htr.
  - rewrite (async_with_final_state body st st1 st2 r Henter Hbody).
    rewrite <- Hself in Hs, Hconn.
    exact (aexit_trace _ st2 s c suppress w3 Hs Hconn Hexit).
Qed.

End Properties.

(** ** The scenarios of the specification, run on the model *)

(** One tool round: the model asks for Tokyo's weather, the server
    answers, the second response is returned. *)
Example tokyo_scenario :
  fst (simple_claude_mcp_chat weather_env "What's the weather in Tokyo?"
         (fresh_client_state [inr asks_tokyo; inr sunny_answer])) =
    inr "It's sunny in Tokyo." /\
  dispatched
    (trace (snd (simple_claude_mcp_chat weather_env
                   "What's the weather in Tokyo?"
                   (fresh_client_state [inr asks_tokyo; inr sunny_answer])))) =
    [("get_weather", tokyo)].
Proof. split; vm_compute; reflexivity. Qed.

(** The tool result sent back to the model is the server's answer, under
    the id of the tool-use block. *)
Example tokyo_scenario_follow_up :
  (Request.messages <$>
   last (requests
           (trace (snd (simple_claude_mcp_chat weather_env
                          "What's the weather in Tokyo?"
                          (fresh_client_state
                             [inr asks_tokyo; inr sunny_answer])))))) =
  Some [Message.Make "user" (ContentText "What's the weather in Tokyo?");
        Message.Make "assistant" (ContentBlocks (Response.content asks_tokyo));
        Message.Make "user"
          (ContentBlocks [ToolResultBlock "t1" "The weather in Tokyo is sunny."])].
Proof. vm_compute. reflexivity. Qed.

(** Empty catalog, plain answer: no dispatch, no tool list. *)
Example hello_scenario :
  let run :=
    chat_with_tools weather_env caller_history default_model default_max_tokens
      (scripted_state weather_server (inr false) (connected_client [])
         demo_history [inr (Response.Make (Some "end_turn") [TextBlock "Hello."])])
  in
  fst run = inr "Hello." /\
  dispatched (trace (snd run)) = [] /\
  map carries_tool_list (requests (trace (snd run))) = [false].
Proof. repeat split; vm_compute; reflexivity. Qed.

(** The dispatcher on a network failure. *)
Example network_failure_scenario :
  fst (_execute_mcp_tool unreachable_env "get_weather" tokyo failing_tool_state) =
  inr "Error executing tool get_weather: All connection attempts failed".
Proof. vm_compute. reflexivity. Qed.

(** A tool call that raises reaches the model as the content of its
    tool result. *)
Example tool_failure_scenario :
  (Request.messages <$>
   last (requests
           (trace (snd (chat_with_tools unreachable_env caller_history
                          default_model default_max_tokens
                          failing_tool_state))))) =
  Some (non_system demo_history ++
        [Message.Make "assistant" (ContentBlocks (Response.content asks_tokyo));
         Message.Make "user"
           (ContentBlocks
              [ToolResultBlock "t1"
                 "Error executing tool get_weather: All connection attempts failed"])]).
Proof. vm_compute. reflexivity. Qed.

(** A failing model call inside [async with]: the exception reaches the
    caller after both handles were released with it. *)
Example failing_model_call_scenario :
  let run :=
    simple_claude_mcp_chat weather_env "Hello" (fresh_client_state [])
  in
  fst run = inl (Exn "APIConnectionError" "Connection error.") /\
  session_released (trace (snd run)) = true /\
  connection_released (trace (snd run)) = true.
Proof. repeat split; vm_compute; reflexivity. Qed.

(** ** Concrete runs of the theorems *)

Lemma chat_tool_round_witness :
  heap two_cities_state !! caller_history = Some demo_history /\
  MCPClaudeClient.mcp_session (self_obj two_cities_state) = Some demo_session /\
  messages_create weather_env
    (first_request (self_obj two_cities_state) demo_history default_model
                   default_max_tokens)
    (world two_cities_state) = (inr asks_two_cities, [inr sunny_answer]) /\
  Response.stop_reason asks_two_cities = Some "tool_use" /\
  exists (evs : list Event) (tool_results : list ContentBlock)
         (req2 : Request.t),
    trace (snd (chat_with_tools weather_env caller_history default_model
                  default_max_tokens two_cities_state)) =
      trace two_cities_state ++
      [EvCreate (first_request (self_obj two_cities_state) demo_history
                               default_model default_max_tokens)] ++
      evs ++ [EvCreate req2] /\
    requests evs = [] /\
    dispatched evs =
      map (fun use => (snd (fst use), snd use))
          (tool_uses (Response.content asks_two_cities)) /\
    length (dispatched evs) = count_tool_use (Response.content asks_two_cities) /\
    Request.messages req2 =
      non_system demo_history ++
      [Message.Make "assistant" (ContentBlocks (Response.content asks_two_cities));
       Message.Make "user" (ContentBlocks tool_results)] /\
    length tool_results = count_tool_use (Response.content asks_two_cities) /\
    map result_id tool_results =
      map (fun use => Some (fst (fst use)))
          (tool_uses (Response.content asks_two_cities)) /\
    Request.model req2 = default_model /\
    Request.max_tokens req2 = default_max_tokens /\
    Request.system req2 =
      Request.system (first_request (self_obj two_cities_state) demo_history
                                    default_model default_max_tokens) /\
    Request.tools req2 = ToolsNotGiven.
Proof.
  assert (H1 : heap two_cities_state !! caller_history = Some demo_history)
    by (vm_compute; reflexivity).
  assert (H2 : MCPClaudeClient.mcp_session (self_obj two_cities_state)
               = Some demo_session) by reflexivity.
  assert (H3 : messages_create weather_env
                 (first_request (self_obj two_cities_state) demo_history
                                default_model default_max_tokens)
                 (world two_cities_state)
               = (inr asks_two_cities, [inr sunny_answer])) by reflexivity.
  assert (H4 : Response.stop_reason asks_two_cities = Some "tool_use")
    by reflexivity.
  split; [exact H1 |]. split; [exact H2 |]. split; [exact H3 |].
  split; [exact H4 |].
  exact (chat_tool_round (E := weather_env) caller_history default_model
           default_max_tokens demo_history two_cities_state demo_session
           asks_two_cities [inr sunny_answer] H1 H2 H3 H4).
Defined.

Lemma chat_plain_completion_witness :
  heap plain_state !! caller_history = Some demo_history /\
  messages_create weather_env
    (first_request (self_obj plain_state) demo_history default_model
                   default_max_tokens)
    (world plain_state) = (inr truncated_answer, []) /\
  Response.stop_reason truncated_answer <> Some "tool_use" /\
  fst (chat_with_tools weather_env caller_history default_model
         default_max_tokens plain_state) =
    inr (concat_strings (texts (Response.content truncated_answer))) /\
  trace (snd (chat_with_tools weather_env caller_history default_model
                default_max_tokens plain_state)) =
    trace plain_state ++
    [EvCreate (first_request (self_obj plain_state) demo_history default_model
                             default_max_tokens)] /\
  (texts (Response.content truncated_answer) = [] ->
   fst (chat_with_tools weather_env caller_history default_model
          default_max_tokens plain_state) = inr "").
Proof.
  assert (H1 : heap plain_state !! caller_history = Some demo_history)
    by (vm_compute; reflexivity).
  assert (H2 : messages_create weather_env
                 (first_request (self_obj plain_state) demo_history
                                default_model default_max_tokens)
                 (world plain_state) = (inr truncated_answer, []))
    by reflexivity.
  assert (H3 : Response.stop_reason truncated_answer <> Some "tool_use")
    by discriminate.
  split; [exact H1 |]. split; [exact H2 |]. split; [exact H3 |].
  exact (chat_plain_completion (E := weather_env) caller_history default_model
           default_max_tokens demo_history plain_state truncated_answer []
           H1 H2 H3).
Defined.

Lemma execute_catches_failure_witness :
  MCPClaudeClient.mcp_session (self_obj failing_tool_state) = Some demo_session /\
  call_tool unreachable_env demo_session "get_weather" tokyo
            (world failing_tool_state) =
    (inl (Exn "ConnectError" "All connection attempts failed"),
     world failing_tool_state) /\
  _execute_mcp_tool unreachable_env "get_weather" tokyo failing_tool_state =
  (inr ("Error executing tool " +:+ "get_weather" +:+ ": " +:+
        exn_str (Exn "ConnectError" "All connection attempts failed")),
   MkState (world failing_tool_state) (heap failing_tool_state)
           (self_obj failing_tool_state)
           (trace failing_tool_state ++
            [EvCallTool demo_session "get_weather" tokyo])).
Proof.
  assert (H1 : MCPClaudeClient.mcp_session (self_obj failing_tool_state)
               = Some demo_session) by reflexivity.
  assert (H2 : call_tool unreachable_env demo_session "get_weather" tokyo
                 (world failing_tool_state) =
               (inl (Exn "ConnectError" "All connection attempts failed"),
                world failing_tool_state)) by reflexivity.
  split; [exact H1 |]. split; [exact H2 |].
  exact (execute_catches_failure (E := unreachable_env) "get_weather" tokyo
           failing_tool_state demo_session
           (Exn "ConnectError" "All connection attempts failed")
           (world failing_tool_state) H1 H2).
Defined.



Lemma chat_system_parameter_witness :
  heap two_system_state !! caller_history = Some two_system_history /\
  exists evs : list Event,
    trace (snd (chat_with_tools weather_env caller_history default_model
                  default_max_tokens two_system_state)) =
      trace two_system_state ++ evs /\
    requests evs <> [] /\
    Forall
      (fun req =>
         has_system_role (Request.messages req) = false /\
         Request.system req = last (system_contents two_system_history))
      (requests evs).
Proof.
  assert (H1 : heap two_system_state !! caller_history = Some two_system_history)
    by (vm_compute; reflexivity).
  split; [exact H1 |].
  exact (chat_system_parameter (E := weather_env) caller_history default_model
           default_max_tokens two_system_history two_system_state H1).
Defined.

Lemma chat_empty_catalog_no_tool_list_witness :
  heap empty_catalog_state !! caller_history = Some demo_history /\
  MCPClaudeClient.available_tools (self_obj empty_catalog_state) = [] /\
  exists evs : list Event,
    trace (snd (chat_with_tools weather_env caller_history default_model
                  default_max_tokens empty_catalog_state)) =
      trace empty_catalog_state ++ evs /\
    requests evs <> [] /\
    Forall (fun req => carries_tool_list req = false) (requests evs) /\
    (Request.tools <$> head (requests evs)) = Some ToolsNone.
Proof.
  assert (H1 : heap empty_catalog_state !! caller_history = Some demo_history)
    by (vm_compute; reflexivity).
  assert (H2 : MCPClaudeClient.available_tools (self_obj empty_catalog_state)
               = []) by reflexivity.
  split; [exact H1 |]. split; [exact H2 |].
  exact (chat_empty_catalog_no_tool_list (E := weather_env) caller_history
           default_model default_max_tokens demo_history empty_catalog_state
           H1 H2).
Defined.

Lemma chat_preserves_caller_history_witness :
  heap two_cities_state !! caller_history = Some demo_history /\
  heap (snd (chat_with_tools weather_env caller_history default_model
               default_max_tokens two_cities_state)) !! caller_history =
    Some demo_history /\
  heap two_cities_state !! fresh (dom (heap two_cities_state)) = None /\
  forall l : loc,
    l <> fresh (dom (heap two_cities_state)) ->
    heap (snd (chat_with_tools weather_env caller_history default_model
                 default_max_tokens two_cities_state)) !! l =
    heap two_cities_state !! l.
Proof.
  assert (H1 : heap two_cities_state !! caller_history = Some demo_history)
    by (vm_compute; reflexivity).
  split; [exact H1 |].
  exact (chat_preserves_caller_history (E := weather_env) caller_history
           default_model default_max_tokens demo_history two_cities_state H1).
Defined.

Lemma scoped_lifetime_releases_in_reverse_order_witness :
  __aenter__ weather_env (fresh_client_state []) =
    (inr tt, snd (__aenter__ weather_env (fresh_client_state []))) /\
  simple_chat_body weather_env "Hello"
    (snd (__aenter__ weather_env (fresh_client_state []))) =
    (inl (Exn "APIConnectionError" "Connection error."),
     snd (simple_chat_body weather_env "Hello"
            (snd (__aenter__ weather_env (fresh_client_state []))))) /\
  trace (snd (__aenter__ weather_env (fresh_client_state []))) =
    trace (fresh_client_state []) ++
    [EvSseEnter demo_connection; EvSessionEnter demo_session;
     EvInitialize demo_session; EvListTools demo_session] /\
  trace (snd (async_with weather_env (simple_chat_body weather_env "Hello")
                (fresh_client_state []))) =
    trace (snd (simple_chat_body weather_env "Hello"
                  (snd (__aenter__ weather_env (fresh_client_state []))))) ++
    [EvSessionExit demo_session
       (exit_info (A := string)
          (inl (Exn "APIConnectionError" "Connection error.")));
     EvSseExit demo_connection
       (exit_info (A := string)
          (inl (Exn "APIConnectionError" "Connection error.")))].
Proof.
  assert (H1 : __aenter__ weather_env (fresh_client_state []) =
               (inr tt, snd (__aenter__ weather_env (fresh_client_state []))))
    by (vm_compute; reflexivity).
  assert (H2 : simple_chat_body weather_env "Hello"
                 (snd (__aenter__ weather_env (fresh_client_state []))) =
               (inl (Exn "APIConnectionError" "Connection error."),
                snd (simple_chat_body weather_env "Hello"
                       (snd (__aenter__ weather_env (fresh_client_state []))))))
    by (vm_compute; reflexivity).
  split; [exact H1 |]. split; [exact H2 |].
  apply (scoped_lifetime_releases_in_reverse_order (E := weather_env)
           (simple_chat_body weather_env "Hello") (fresh_client_state [])
           _ _ (inl (Exn "APIConnectionError" "Connection error."))
           demo_session demo_connection false [] H1 H2);
    vm_compute; reflexivity.
Defined.

(** ** Where the code departs from the specification's wording *)

(** C2, as the specification words it, fails for a descriptor whose
    schema is present but is the empty dict: the adapter replaces it by
    the placeholder. *)
Lemma convert_empty_schema_counterexample :
  Tool.inputSchema ping_tool = Some (JObj []) /\
  ~ Forall2
      (fun tool entry => ClaudeTool.input_schema entry = spec_input_schema tool)
      [ping_tool]
      (_convert_mcp_tools_to_claude_format (connected_client [ping_tool])).
Proof.
  split; [reflexivity |].
  intros H. inversion H as [|tool entry tools entries Hhd Htl]; subst.
  vm_compute in Hhd. discriminate.
Qed.


(** C7, as the specification words it, fails for a history with two
    system-role messages: the request carries the second one. *)
Lemma chat_first_system_counterexample :
  spec_first_system two_system_history =
    Some (ContentText "Answer in English.") /\
  map Request.system
      (requests (trace (snd (chat_with_tools weather_env caller_history
                               default_model default_max_tokens
                               two_system_state)))) =
    [Some (ContentText "Answer in French.")] /\
  ~ Forall
      (fun req => Request.system req = spec_first_system two_system_history)
      (requests (trace (snd (chat_with_tools weather_env caller_history
                               default_model default_max_tokens
                               two_system_state)))).
Proof.
  split; [reflexivity |]. split; [vm_compute; reflexivity |].
  intros H. vm_compute in H.
  inversion H as [|req reqs Hhd Htl]; subst. discriminate.
Qed.

(** C9, as the specification words it, fails when releasing the session
    raises: the exception leaves [__aexit__] and the connection is not
    released. *)
Lemma aexit_session_failure_counterexample :
  session_aexit failing_close_env demo_session None
                (world failing_close_state) =
    (inl session_close_error, world failing_close_state) /\
  fst (__aexit__ failing_close_env None failing_close_state) =
    inl session_close_error /\
  trace (snd (__aexit__ failing_close_env None failing_close_state)) =
    [EvSessionExit demo_session None] /\
  connection_released
    (trace (snd (__aexit__ failing_close_env None failing_close_state))) = false.
Proof. repeat split; vm_compute; reflexivity. Qed.

(** ** Further properties of the client *)

Section Further.

Context {E : Env}.

Ltac run :=
  unfold bind, ret, raise, try_except, get_self, set_self, log, external,
    new_list, list_literal, read_list, list_append; simpl.

(** *** The dispatcher, beyond its two documented outcomes *)


(** X2: on a client that has no session (it never entered its scoped
    lifetime), the dispatcher makes no remote call and returns the error
    string for the attribute error, as a normal result. *)
Theorem execute_without_session (name : string) (arguments : json)
    (st : State E) :
  MCPClaudeClient.mcp_session (self_obj st) = None ->
  _execute_mcp_tool E name arguments st =
  (inr ("Error executing tool " +:+ name +:+
        ": 'NoneType' object has no attribute 'call_tool'"), st).
Proof.
  intros Hs. destruct st as [w h self tr]. simpl in *.
  unfold _execute_mcp_tool, session_call_tool. run. rewrite Hs. reflexivity.
Qed.

(** X3: a successful remote call whose first content element has no
    [text] attribute (an image, an embedded resource) does not yield that
    element: reading [text] raises inside the dispatcher, and the result
    is the error string for that attribute error; later elements are not
    looked at. *)
Theorem execute_non_text_item_is_error (name : string) (arguments : json)
    (st : State E) (s : ClientSession) (result : CallToolResult) (w' : World E)
    (item : ContentItem) :
  MCPClaudeClient.mcp_session (self_obj st) = Some s ->
  call_tool E s name arguments (world st) = (inr result, w') ->
  result_content result !! 0%nat = Some item ->
  payload item = None ->
  fst (_execute_mcp_tool E name arguments st) =
  inr ("Error executing tool " +:+ name +:+ ": " +:+
       "'" +:+ item_class item +:+ "' object has no attribute 'text'").
Proof.
  intros Hs Hcall Hitem Hpay.
  exact (execute_first_item_without_text name arguments st s result w' item
           Hs Hcall Hitem Hpay).
Qed.

Lemma error_message_nonempty (name : string) (e : exn) :
  error_message name e <> "".
Proof. unfold error_message. apply string_app_nonempty_l. discriminate. Qed.

Lemma no_content_message_nonempty (name : string) :
  no_content_message name <> "".
Proof. unfold no_content_message. apply string_app_nonempty_l. discriminate. Qed.

Lemma returned_nonempty (s : string) :
  s <> "" -> @inr exn string s <> inr "".
Proof. intros Hne H. apply Hne. congruence. Qed.

(** X4: the dispatcher returns the empty string in one case only: the
    remote call succeeded and the first content element is a text item
    whose text is empty.  Every error string and the no-content
    placeholder are non-empty. *)
Theorem execute_empty_only_from_empty_text (name : string) (arguments : json)
    (st : State E) :
  fst (_execute_mcp_tool E name arguments st) = inr "" ->
  exists (s : ClientSession) (result : CallToolResult) (w' : World E),
    MCPClaudeClient.mcp_session (self_obj st) = Some s /\
    call_tool E s name arguments (world st) = (inr result, w') /\
    head (result_content result) = Some (TextContent "").
Proof.
  destruct st as [w h self tr]. simpl.
  unfold _execute_mcp_tool, session_call_tool. run.
  destruct (MCPClaudeClient.mcp_session self) as [s|]; simpl.
  - destruct (call_tool E s name arguments w) as [[e|result] w'] eqn:Hcall;
      simpl.
    + intros H. exfalso. revert H.
      apply returned_nonempty, error_message_nonempty.
    + destruct (result_content result) as [|item items] eqn:Hcontent; simpl.
      * intros H. exfalso. revert H.
        apply returned_nonempty, no_content_message_nonempty.
      * destruct item as [text | data mime | uri]; simpl.
        -- intros H. assert (text = "") as -> by congruence.
           exists s, result, w'. rewrite Hcontent.
           split; [reflexivity | split; [exact Hcall | reflexivity]].
        -- intros H. exfalso. revert H.
           apply returned_nonempty, error_message_nonempty.
        -- intros H. exfalso. revert H.
           apply returned_nonempty, error_message_nonempty.
  - intros H. exfalso. revert H.
    apply returned_nonempty, error_message_nonempty.
Qed.

(** *** The orchestrator: what a run does and never does *)

(** X5: a run never changes the client object: the cached catalog and
    the session and connection handles are the same afterwards, whether
    the run returns or raises. *)
Theorem chat_keeps_client (messages : loc) (model : string) (max_tokens : Z)
    (history : list Message.t) (st : State E) :
  heap st !! messages = Some history ->
  self_obj (snd (chat_with_tools E messages model max_tokens st)) = self_obj st.
Proof.
  intros Hm.
  destruct (chat_summary messages model max_tokens history st Hm)
    as (cm & evs & _ & Hself & _).
  exact Hself.
Qed.


(** X7: when the first completion request raises, the exception reaches
    the caller as it is, after that single request: no tool is
    dispatched and no follow-up request is made. *)
Theorem chat_first_failure_propagates (messages : loc) (model : string)
    (max_tokens : Z) (history : list Message.t) (st : State E) (e : exn)
    (w1 : World E) :
  heap st !! messages = Some history ->
  messages_create E (first_request (self_obj st) history model max_tokens)
                  (world st) = (inl e, w1) ->
  fst (chat_with_tools E messages model max_tokens st) = inl e /\
  trace (snd (chat_with_tools E messages model max_tokens st)) =
    trace st ++
    [EvCreate (Request.Make model max_tokens (last (system_contents history))
                 (non_system history)
                 (tools_or_none
                    (_convert_mcp_tools_to_claude_format (self_obj st))))] /\
  world (snd (chat_with_tools E messages model max_tokens st)) = w1.
Proof.
  intros Hm Hc.
  rewrite (chat_first_raises _ _ _ history st e w1 Hm Hc). simpl.
  unfold first_request. rewrite system_of_last. repeat split.
Qed.

Lemma non_system_id (msgs : list Message.t) :
  has_system_role msgs = false -> non_system msgs = msgs.
Proof.
  induction msgs as [|m rest IH]; simpl; [reflexivity |].
  destruct (Message.role m =? "system"); simpl; [discriminate |].
  intros H. now rewrite IH.
Qed.

Lemma system_contents_nil (msgs : list Message.t) :
  has_system_role msgs = false -> system_contents msgs = [].
Proof.
  unfold system_contents.
  induction msgs as [|m rest IH]; simpl; [reflexivity |].
  destruct (Message.role m =? "system"); simpl; [discriminate |].
  exact IH.
Qed.

(** The first event of every run is its first completion request. *)
Lemma chat_first_event (messages : loc) (model : string) (max_tokens : Z)
    (history : list Message.t) (st : State E) :
  heap st !! messages = Some history ->
  exists evs : list Event,
    trace (snd (chat_with_tools E messages model max_tokens st)) =
    trace st ++
    EvCreate (first_request (self_obj st) history model max_tokens) :: evs /\
    (requests evs = [] \/
     exists response tool_results,
       requests evs =
       [follow_up_request history model max_tokens response tool_results]).
Proof.
  intros Hm.
  destruct (messages_create E
              (first_request (self_obj st) history model max_tokens) (world st))
    as [[e|response] w1] eqn:Hc.
  - rewrite (chat_first_raises _ _ _ history st e w1 Hm Hc). simpl.
    exists []. split; [reflexivity | now left].
  - destruct (is_tool_use response) eqn:Ht.
    + destruct (chat_tool_use _ _ _ history st response w1 Hm Hc Ht)
        as (outs & w2 & Hlen & Hrun).
      destruct (messages_create E
                  (follow_up_request history model max_tokens response
                     (zip_with result_block
                        (tool_uses (Response.content response)) outs)) w2)
        as [r w3] eqn:Hc2.
      rewrite (Hrun r w3 eq_refl). simpl.
      eexists. split; [reflexivity |]. right. eexists _, _.
      rewrite requests_app, requests_round_events. reflexivity.
    + rewrite (chat_plain _ _ _ history st response w1 Hm Hc Ht). simpl.
      exists []. split; [reflexivity | now left].
Qed.

(** X8: a history without a system-role message is passed through as it
    is: the first request carries exactly the caller's messages, in
    order, and [None] as its system parameter. *)
Theorem chat_history_without_system (messages : loc) (model : string)
    (max_tokens : Z) (history : list Message.t) (st : State E) :
  heap st !! messages = Some history ->
  has_system_role history = false ->
  exists evs : list Event,
    trace (snd (chat_with_tools E messages model max_tokens st)) =
    trace st ++
    EvCreate (Request.Make model max_tokens None history
                (tools_or_none
                   (_convert_mcp_tools_to_claude_format (self_obj st))))
    :: evs.
Proof.
  intros Hm Hsys.
  destruct (chat_first_event messages model max_tokens history st Hm)
    as (evs & Htr & _).
  exists evs. rewrite Htr. unfold first_request.
  rewrite system_of_last, system_contents_nil, non_system_id by exact Hsys.
  reflexivity.
Qed.

(** X9: with a non-empty catalog the first request offers a tool list
    with one entry per cached descriptor, names in catalog order; a
    follow-up request never offers tools, so the model cannot ask for a
    second tool round. *)
Theorem chat_offers_catalog (messages : loc) (model : string)
    (max_tokens : Z) (history : list Message.t) (st : State E) :
  heap st !! messages = Some history ->
  MCPClaudeClient.available_tools (self_obj st) <> [] ->
  exists (first : Request.t) (offered : list ClaudeTool.t) (evs : list Event),
    trace (snd (chat_with_tools E messages model max_tokens st)) =
      trace st ++ EvCreate first :: evs /\
    Request.tools first = ToolsList offered /\
    map ClaudeTool.name offered =
      map Tool.name (MCPClaudeClient.available_tools (self_obj st)) /\
    Forall (fun req => Request.tools req = ToolsNotGiven) (requests evs).
Proof.
  intros Hm Hcat.
  destruct (chat_first_event messages model max_tokens history st Hm)
    as (evs & Htr & Hreq).
  exists (first_request (self_obj st) history model max_tokens),
         (_convert_mcp_tools_to_claude_format (self_obj st)), evs.
  split; [exact Htr |]. split; [| split].
  - simpl. rewrite convert_spec.
    destruct (MCPClaudeClient.available_tools (self_obj st)); [congruence |].
    reflexivity.
  - rewrite convert_spec, map_map. reflexivity.
  - destruct Hreq as [-> | (response & tool_results & ->)]; repeat constructor.
Qed.

(** X10: a run makes at least one and at most two completion requests,
    whatever the responses are: a second response that again stops for
    tool use starts no further round. *)
Theorem chat_at_most_two_requests (messages : loc) (model : string)
    (max_tokens : Z) (history : list Message.t) (st : State E) :
  heap st !! messages = Some history ->
  exists evs : list Event,
    trace (snd (chat_with_tools E messages model max_tokens st)) =
      trace st ++ evs /\
    (1 <= length (requests evs) <= 2)%nat.
Proof.
  intros Hm.
  destruct (chat_summary messages model max_tokens history st Hm)
    as (cm & evs & _ & _ & Htr & Hreq).
  exists evs. split; [exact Htr |].
  destruct Hreq as [-> | (response & tool_results & ->)]; simpl; lia.
Qed.

(** X11: a first response that stops for tool use but holds no tool-use
    block still leads to a follow-up request: nothing is dispatched, and
    the user message appended for the results has an empty content
    list. *)
Theorem chat_tool_use_without_blocks (messages : loc) (model : string)
    (max_tokens : Z) (history : list Message.t) (st : State E)
    (response : Response.t) (w1 : World E) :
  heap st !! messages = Some history ->
  messages_create E (first_request (self_obj st) history model max_tokens)
                  (world st) = (inr response, w1) ->
  Response.stop_reason response = Some "tool_use" ->
  count_tool_use (Response.content response) = 0%nat ->
  trace (snd (chat_with_tools E messages model max_tokens st)) =
    trace st ++
    [EvCreate (first_request (self_obj st) history model max_tokens);
     EvCreate
       (Request.Make model max_tokens (last (system_contents history))
          (non_system history ++
           [Message.Make "assistant" (ContentBlocks (Response.content response));
            Message.Make "user" (ContentBlocks [])])
          ToolsNotGiven)].
Proof.
  intros Hm Hc Hstop Hcount.
  destruct (chat_tool_use _ _ _ history st response w1 Hm Hc
              (is_tool_use_true _ Hstop)) as (outs & w2 & Hlen & Hrun).
  rewrite <- tool_uses_length in Hcount.
  destruct (tool_uses (Response.content response)) as [|use uses] eqn:Huses;
    [| discriminate].
  destruct outs as [|out outs]; [| discriminate].
  simpl in Hrun.
  destruct (messages_create E
              (follow_up_request history model max_tokens response []) w2)
    as [r w3] eqn:Hc2.
  rewrite (Hrun r w3 eq_refl). simpl.
  unfold follow_up_request, follow_up_messages. rewrite system_of_last.
  reflexivity.
Qed.

(** *** The session lifetime: failures *)

(** X12: when [__aenter__] raises, whichever setup step failed, the
    [async with] block raises that exception without running its body
    and without calling [__aexit__]: the connection attempt is the first
    event, and nothing that was acquired is released. *)
Theorem aenter_failure_releases_nothing {A : Type} (body : M E A)
    (st st1 : State E) (e : exn) :
  __aenter__ E st = (inl e, st1) ->
  async_with E body st = (inl e, st1) /\
  exists evs : list Event,
    trace st1 =
      trace st ++
      EvSseEnter {| sse_url := MCPClaudeClient.mcp_server_url (self_obj st) |}
      :: evs /\
    session_released evs = false /\
    connection_released evs = false /\
    requests evs = [] /\
    heap st1 = heap st.
Proof.
  intros Henter. split.
  - unfold async_with. now rewrite Henter.
  - revert Henter. destruct st as [w h self tr]. unfold __aenter__. run.
    destruct (sse_aenter E _ w) as [[e0|rw] w1]; simpl.
    { intros [= <- <-]. exists []. simpl. repeat split. }
    destruct (session_aenter E _ w1) as [[e1|u1] w2]; simpl.
    { intros [= <- <-]. eexists. simpl. rewrite <- app_assoc. simpl.
      repeat split. }
    destruct (session_initialize E _ w2) as [[e2|u2] w3]; simpl.
    { intros [= <- <-]. eexists. simpl. rewrite <- !app_assoc. simpl.
      repeat split. }
    destruct (session_list_tools E _ w3) as [[e3|tools] w4]; simpl.
    { intros [= <- <-]. eexists. simpl. rewrite <- !app_assoc. simpl.
      repeat split. }
    discriminate.
Qed.

(** X13: a successful [__aenter__] replaces the cached catalog by exactly
    what [list_tools] answered on the new session, keeps the server URL,
    and touches no message list. *)
Theorem aenter_caches_catalog (st st' : State E) :
  __aenter__ E st = (inr tt, st') ->
  exists (s : ClientSession) (w w' : World E) (tools : list Tool.t),
    session_list_tools E s w = (inr tools, w') /\
    MCPClaudeClient.mcp_session (self_obj st') = Some s /\
    MCPClaudeClient.available_tools (self_obj st') = tools /\
    world st' = w' /\
    heap st' = heap st /\
    MCPClaudeClient.mcp_server_url (self_obj st') =
      MCPClaudeClient.mcp_server_url (self_obj st).
Proof.
  destruct st as [w h self tr]. unfold __aenter__. run.
  destruct (sse_aenter E _ w) as [[e|rw] w1]; [discriminate |]. simpl.
  destruct (session_aenter E _ w1) as [[e|u1] w2]; [discriminate |]. simpl.
  destruct (session_initialize E _ w2) as [[e|u2] w3]; [discriminate |]. simpl.
  destruct (session_list_tools E _ w3) as [[e|tools] w4] eqn:Hlist;
    [discriminate |]. simpl.
  intros [= <-]. eexists _, w3, w4, tools. simpl.
  split; [exact Hlist |]. repeat split.
Qed.

(** X14: when releasing the session raises, the [async with] block
    raises that exception whatever its body did: a value the body
    returned, or the body's own exception, is lost, and the connection is
    not released. *)
Theorem scoped_release_failure_masks_outcome {A : Type} (body : M E A)
    (st st1 st2 : State E) (r : exn + A) (s : ClientSession) (e' : exn)
    (w3 : World E) :
  __aenter__ E st = (inr tt, st1) ->
  body st1 = (r, st2) ->
  MCPClaudeClient.mcp_session (self_obj st2) = Some s ->
  session_aexit E s (exit_info r) (world st2) = (inl e', w3) ->
  async_with E body st =
  (inl e',
   MkState w3 (heap st2) (self_obj st2)
     (trace st2 ++ [EvSessionExit s (exit_info r)])).
Proof.
  intros Henter Hbody Hs Hexit.
  unfold async_with. rewrite Henter, Hbody.
  now rewrite (aexit_session_raises (exit_info r) st2 s e' w3 Hs Hexit).
Qed.

Lemma aexit_extends (exc : ExcInfo) (st : State E) :
  exists evs : list Event,
    trace (snd (__aexit__ E exc st)) = trace st ++ evs /\
    requests evs = [] /\
    heap (snd (__aexit__ E exc st)) = heap st.
Proof.
  destruct st as [w h self tr]. unfold __aexit__. run.
  destruct (MCPClaudeClient.mcp_session self) as [s|]; run.
  - destruct (session_aexit E s exc w) as [[e|b] w1]; simpl.
    + eexists. repeat split.
    + destruct (MCPClaudeClient.sse_connection self) as [c|]; run.
      * destruct (sse_aexit E c exc w1) as [[e|b'] w2]; simpl;
          rewrite <- app_assoc; eexists; repeat split.
      * eexists. repeat split.
  - destruct (MCPClaudeClient.sse_connection self) as [c|]; run.
    + destruct (sse_aexit E c exc w) as [[e|b'] w2]; simpl;
        eexists; repeat split.
    + exists []. rewrite app_nil_r. repeat split.
Qed.

(** X15: [simple_claude_mcp_chat] sends, as the first completion request
    after a successful setup, the default model and token budget, no
    system text, the user's message as the only message, and the tool
    list converted from the catalog cached by that setup. *)
Theorem simple_chat_first_request (user_message : string) (st st1 : State E) :
  __aenter__ E st = (inr tt, st1) ->
  exists evs : list Event,
    trace (snd (simple_claude_mcp_chat E user_message st)) =
    trace st1 ++
    EvCreate
      (Request.Make "claude-3-5-sonnet-20241022" 1024 None
         [Message.Make "user" (ContentText user_message)]
         (tools_or_none (_convert_mcp_tools_to_claude_format (self_obj st1))))
    :: evs.
Proof.
  intros Henter. unfold simple_claude_mcp_chat.
  destruct (simple_chat_body E user_message st1) as [r st2] eqn:Hbody.
  rewrite (async_with_final_state _ st st1 st2 r Henter Hbody).
  destruct (aexit_extends (exit_info r) st2) as (evs2 & Htr2 & _).
  rewrite Htr2.
  assert (Hst2 : exists evs : list Event,
    trace st2 =
    trace st1 ++
    EvCreate
      (Request.Make "claude-3-5-sonnet-20241022" 1024 None
         [Message.Make "user" (ContentText user_message)]
         (tools_or_none (_convert_mcp_tools_to_claude_format (self_obj st1))))
    :: evs).
  { revert Hbody. unfold simple_chat_body. destruct st1 as [w h self tr].
    unfold bind at 1. unfold list_literal at 1. simpl.
    intros Hbody.
    destruct (chat_first_event (fresh (dom h)) default_model default_max_tokens
                [Message.Make "user" (ContentText user_message)]
                (MkState w
                   (<[fresh (dom h) :=
                        [Message.Make "user" (ContentText user_message)]]> h)
                   self tr))
      as (evs & Htr & _); [simpl; apply lookup_insert_eq |].
    rewrite Hbody in Htr. simpl in Htr. exists evs. exact Htr. }
  destruct Hst2 as (evs & ->).
  exists (evs ++ evs2). rewrite <- app_assoc. reflexivity.
Qed.

(** *** The entry points *)

Ltac cli := unfold cli_bind, cli_try, cli_ret, lift, print; simpl.

(** X16: without a usable key (the variable is unset, or holds the
    placeholder text), [main] prints its three lines of help and returns:
    it constructs no client, attempts no connection and reads no
    input. *)
Theorem main_without_key (key : option string) (inputs : list string)
    (cst : State E * list Output) :
  key = None \/ key = Some "your-anthropic-api-key-here" ->
  main E key inputs cst =
  (inr tt,
   (fst cst, snd cst ++ [OutPleaseSetKey; OutKeyOption1; OutKeyOption2])).
Proof.
  intros [-> | ->]; unfold main; simpl; cli;
    rewrite <- !app_assoc; reflexivity.
Qed.

Lemma usable_key (k : string) :
  k <> "your-anthropic-api-key-here" ->
  (from_option id placeholder_key (Some k) =? "your-anthropic-api-key-here")
  = false.
Proof. intros Hk. simpl. now apply String.eqb_neq. Qed.

(** X17: with any other key, the empty string included, [main] attempts
    the connection on a new client; when that setup raises, [main] prints
    the failure and the server hint and returns normally, without any
    completion request and without reading input. *)
Theorem main_reports_connection_failure (k : string) (inputs : list string)
    (st st1 : State E) (out : list Output) (e : exn) :
  k <> "your-anthropic-api-key-here" ->
  __aenter__ E (with_new_client st) = (inl e, st1) ->
  main E (Some k) inputs (st, out) =
  (inr tt, (st1, out ++ [OutFailedToConnect (exn_str e); OutServerHint])).
Proof.
  intros Hk Henter. unfold main. rewrite (usable_key k Hk).
  unfold construct_client, cli_async_with. cli.
  unfold set_self. simpl. unfold with_new_client in Henter.
  rewrite Henter. simpl. rewrite <- app_assoc. reflexivity.
Qed.


(** X19: [quick_example] treats an unset key and an empty key alike: it
    prints one line and returns, with no client and no connection. *)
Theorem quick_example_without_key (key : option string)
    (cst : State E * list Output) :
  key = None \/ key = Some "" ->
  quick_example E key cst = (inr tt, (fst cst, snd cst ++ [OutSetEnvironment])).
Proof. intros [-> | ->]; reflexivity. Qed.

(** X20: [quick_example] has no handler of its own: when the setup of the
    session raises, the exception leaves [quick_example] and nothing is
    printed. *)
Theorem quick_example_propagates_setup_failure (k : string)
    (st st1 : State E) (out : list Output) (e : exn) :
  k <> "" ->
  __aenter__ E (with_new_client st) = (inl e, st1) ->
  quick_example E (Some k) (st, out) = (inl e, (st1, out)).
Proof.
  intros Hk Henter. unfold quick_example.
  apply String.eqb_neq in Hk. rewrite Hk.
  unfold construct_client, simple_claude_mcp_chat, async_with. cli.
  unfold set_self. simpl. unfold with_new_client in Henter.
  rewrite Henter. reflexivity.
Qed.

(** One step of the interactive loop. *)

Lemma chat_loop_end (conversation_history : loc) (cst : State E * list Output) :
  chat_loop E [] conversation_history cst =
  (inl eof_error, (fst cst, snd cst ++ [OutPrompt])).
Proof. reflexivity. Qed.

Lemma chat_loop_quit (user_input : string) (rest : list string)
    (conversation_history : loc) (cst : State E * list Output) :
  is_quit user_input = true ->
  chat_loop E (user_input :: rest) conversation_history cst =
  (inr tt, (fst cst, snd cst ++ [OutPrompt])).
Proof. intros Hq. simpl. cli. now rewrite Hq. Qed.

Lemma chat_loop_turn_failed (user_input : string) (rest : list string)
    (h : loc) (old : list Message.t) (st st2 : State E) (out : list Output)
    (e : exn) :
  is_quit user_input = false ->
  heap st !! h = Some old ->
  chat_with_tools E h "claude-3-5-sonnet-20241022" default_max_tokens
    (after_user_line h old user_input st) = (inl e, st2) ->
  chat_loop E (user_input :: rest) h (st, out) =
  chat_loop E rest h (st2, (out ++ [OutPrompt]) ++ [OutError (exn_str e)]).
Proof.
  intros Hq Hh Hchat. simpl. rewrite Hq. cli.
  unfold list_append at 1. rewrite Hh. simpl.
  unfold after_user_line in Hchat. rewrite Hchat. reflexivity.
Qed.

Lemma chat_loop_turn_answered (user_input : string) (rest : list string)
    (h : loc) (old ms : list Message.t) (st st2 : State E) (out : list Output)
    (response : string) :
  is_quit user_input = false ->
  heap st !! h = Some old ->
  chat_with_tools E h "claude-3-5-sonnet-20241022" default_max_tokens
    (after_user_line h old user_input st) = (inr response, st2) ->
  heap st2 !! h = Some ms ->
  chat_loop E (user_input :: rest) h (st, out) =
  chat_loop E rest h
    (after_answer h ms response st2,
     (out ++ [OutPrompt]) ++ [OutClaude response]).
Proof.
  intros Hq Hh Hchat Hh2. simpl. rewrite Hq. cli.
  unfold list_append at 1. rewrite Hh. simpl.
  unfold after_user_line in Hchat. rewrite Hchat. simpl.
  unfold list_append at 1. rewrite Hh2. reflexivity.
Qed.

(** The loop only adds events to the trace. *)
Lemma chat_loop_trace (inputs : list string) :
  forall (h : loc) (old : list Message.t) (st : State E) (out : list Output),
    heap st !! h = Some old ->
    exists evs : list Event,
      trace (fst (snd (chat_loop E inputs h (st, out)))) = trace st ++ evs.
Proof.
  induction inputs as [|user_input rest IH]; intros h old st out Hh.
  - exists []. rewrite chat_loop_end. simpl. now rewrite app_nil_r.
  - destruct (is_quit user_input) eqn:Hq.
    + exists []. rewrite (chat_loop_quit _ _ _ _ Hq). simpl.
      now rewrite app_nil_r.
    + assert (Hh1 : heap (after_user_line h old user_input st) !! h =
                    Some (old ++ [Message.Make "user" (ContentText user_input)]))
        by (simpl; apply lookup_insert_eq).
      destruct (chat_summary h "claude-3-5-sonnet-20241022" default_max_tokens
                  _ _ Hh1) as (cm & evs1 & Hheap & _ & Htr & _).
      destruct (chat_with_tools E h "claude-3-5-sonnet-20241022"
                  default_max_tokens (after_user_line h old user_input st))
        as [r st2] eqn:Hchat.
      simpl in Hheap, Htr.
      assert (Hh2 : heap st2 !! h =
                    Some (old ++ [Message.Make "user" (ContentText user_input)])).
      { rewrite Hheap. rewrite lookup_insert_ne; [exact Hh1 |].
        now apply (fresh_ne _ _ _ Hh1). }
      destruct r as [e|response].
      * rewrite (chat_loop_turn_failed _ rest _ _ _ _ out _ Hq Hh Hchat).
        destruct (IH h _ st2 ((out ++ [OutPrompt]) ++ [OutError (exn_str e)])
                    Hh2) as (evs & Htrace).
        exists (evs1 ++ evs). rewrite Htrace, Htr, app_assoc. reflexivity.
      * rewrite (chat_loop_turn_answered _ rest _ _ _ _ _ out _ Hq Hh Hchat Hh2).
        destruct (IH h
                    ((old ++ [Message.Make "user" (ContentText user_input)])
                     ++ [Message.Make "assistant" (ContentText response)])
                    (after_answer h
                       (old ++ [Message.Make "user" (ContentText user_input)])
                       response st2)
                    ((out ++ [OutPrompt]) ++ [OutClaude response]))
          as (evs & Htrace); [simpl; apply lookup_insert_eq |].
        exists (evs1 ++ evs). rewrite Htrace. simpl.
        rewrite Htr, app_assoc. reflexivity.
Qed.


(** *** The weather tool of [server.py] *)

Lemma string_app_length (a b : string) :
  String.length (a +:+ b) = (String.length a + String.length b)%nat.
Proof.
  induction a as [|ch a IH]; [reflexivity |].
  rewrite string_app_cons. simpl. now rewrite IH.
Qed.

Lemma string_app_cancel_l (p a b : string) : p +:+ a = p +:+ b -> a = b.
Proof.
  induction p as [|ch p IH]; [trivial |].
  rewrite !string_app_cons. intros [= H]. now apply IH.
Qed.

Lemma string_app_cancel_r (a b s : string) : a +:+ s = b +:+ s -> a = b.
Proof.
  revert b. induction a as [|ch a IH]; intros [|ch' b] H.
  - reflexivity.
  - apply (f_equal String.length) in H.
    rewrite !string_app_length in H. simpl in H. lia.
  - apply (f_equal String.length) in H.
    rewrite !string_app_length in H. simpl in H. lia.
  - rewrite !string_app_cons in H. injection H as -> H.
    f_equal. now apply IH.
Qed.

(** X22: the answer of [get_weather] determines the city: two cities
    with the same answer are the same string, so a client can tell from
    a tool result which city it is about. *)
Theorem get_weather_injective (city1 city2 : string) :
  get_weather city1 = get_weather city2 -> city1 = city2.
Proof.
  unfold get_weather. intros H.
  apply string_app_cancel_l in H.
  now apply string_app_cancel_r in H.
Qed.

(** *** [main] after a successful setup *)

Lemma main_session_trace (inputs : list string) (st1 : State E)
    (out : list Output) :
  exists evs : list Event,
    trace (fst (snd (main_session E inputs (st1, out)))) =
    trace st1 ++ EvCreate (demo_request (self_obj st1)) :: evs.
Proof.
  destruct st1 as [w h self tr]. unfold main_session. cli.
  unfold get_self, list_literal. simpl.
  set (history :=
         [weather_system_message;
          Message.Make "user"
            (ContentText "What's the weather like in Tokyo and New York?")]).
  set (st2 := MkState w (<[fresh (dom h) := history]> h) self tr).
  destruct (chat_first_event (fresh (dom h)) "claude-3-5-sonnet-20241022"
              default_max_tokens history st2)
    as (evs & Htr & _); [simpl; apply lookup_insert_eq |].
  destruct (chat_with_tools E (fresh (dom h)) "claude-3-5-sonnet-20241022"
              default_max_tokens st2) as [[e|response] st3] eqn:Hchat;
    simpl in Htr |- *.
  - exists evs. exact Htr.
  - destruct st3 as [w3 h3 self3 tr3]. simpl in Htr |- *.
    match goal with
    | |- context [chat_loop E inputs ?l (?s, ?o)] =>
        destruct (chat_loop_trace inputs l [weather_system_message] s o)
          as (evs2 & Htr2);
          [simpl; apply lookup_insert_eq |]
    end.
    rewrite Htr2. simpl. rewrite Htr.
    exists (evs ++ evs2). rewrite <- app_assoc. reflexivity.
Qed.

(** X23: with a usable key and a successful setup, the first completion
    request [main] makes is the one of its example conversation: the
    system text is sent as the system parameter, the only message is the
    user's question about Tokyo and New York, and the tools are those of
    the catalog cached by the setup. *)
Theorem main_example_request (k : string) (inputs : list string)
    (st st1 : State E) (out : list Output) :
  k <> "your-anthropic-api-key-here" ->
  __aenter__ E (with_new_client st) = (inr tt, st1) ->
  exists evs : list Event,
    trace (fst (snd (main E (Some k) inputs (st, out)))) =
    trace st1 ++ EvCreate (demo_request (self_obj st1)) :: evs.
Proof.
  intros Hk Henter. unfold main. rewrite (usable_key k Hk).
  unfold construct_client, cli_async_with. cli.
  unfold set_self. simpl. unfold with_new_client in Henter.
  rewrite Henter. simpl.
  destruct (main_session_trace inputs st1 out) as (evs & Htr).
  destruct (main_session E inputs (st1, out)) as [r [st2 out2]] eqn:Hbody.
  simpl in Htr |- *.
  destruct (aexit_extends (exit_info r) st2) as (evs2 & Htr2 & _).
  destruct (__aexit__ E (exit_info r) st2) as [[e'|u] st3] eqn:Hexit;
    simpl in Htr2 |- *.
  - rewrite Htr2, Htr. exists (evs ++ evs2). now rewrite <- app_assoc.
  - destruct r as [e|u']; simpl;
      rewrite Htr2, Htr; exists (evs ++ evs2); now rewrite <- app_assoc.
Qed.

End Further.

(** ** Concrete runs of the further properties *)

Lemma execute_without_session_witness :
  MCPClaudeClient.mcp_session (self_obj unentered_state) = None /\
  _execute_mcp_tool weather_env "get_weather" tokyo unentered_state =
  (inr ("Error executing tool " +:+ "get_weather" +:+
        ": 'NoneType' object has no attribute 'call_tool'"), unentered_state).
Proof.
  assert (H1 : MCPClaudeClient.mcp_session (self_obj unentered_state) = None)
    by reflexivity.
  split; [exact H1 |].
  exact (execute_without_session (E := weather_env) "get_weather" tokyo
           unentered_state H1).
Defined.

Lemma execute_non_text_item_is_error_witness :
  MCPClaudeClient.mcp_session (self_obj image_state) = Some demo_session /\
  call_tool image_env demo_session "get_weather" tokyo (world image_state) =
    (inr {| result_content :=
              [ImageContent "iVBORw0KGgo=" "image/png"; TextContent "a chart"] |},
     world image_state) /\
  result_content
    {| result_content :=
         [ImageContent "iVBORw0KGgo=" "image/png"; TextContent "a chart"] |}
    !! 0%nat = Some (ImageContent "iVBORw0KGgo=" "image/png") /\
  payload (ImageContent "iVBORw0KGgo=" "image/png") = None /\
  fst (_execute_mcp_tool image_env "get_weather" tokyo image_state) =
  inr ("Error executing tool " +:+ "get_weather" +:+ ": " +:+
       "'" +:+ item_class (ImageContent "iVBORw0KGgo=" "image/png") +:+
       "' object has no attribute 'text'").
Proof.
  assert (H1 : MCPClaudeClient.mcp_session (self_obj image_state)
               = Some demo_session) by reflexivity.
  assert (H2 : call_tool image_env demo_session "get_weather" tokyo
                 (world image_state) =
               (inr {| result_content :=
                         [ImageContent "iVBORw0KGgo=" "image/png";
                          TextContent "a chart"] |},
                world image_state)) by reflexivity.
  assert (H3 : result_content
                 {| result_content :=
                      [ImageContent "iVBORw0KGgo=" "image/png";
                       TextContent "a chart"] |}
                 !! 0%nat = Some (ImageContent "iVBORw0KGgo=" "image/png"))
    by reflexivity.
  assert (H4 : payload (ImageContent "iVBORw0KGgo=" "image/png") = None)
    by reflexivity.
  split; [exact H1 |]. split; [exact H2 |]. split; [exact H3 |].
  split; [exact H4 |].
  exact (execute_non_text_item_is_error (E := image_env) "get_weather" tokyo
           image_state demo_session _ (world image_state) _ H1 H2 H3 H4).
Defined.

Lemma execute_empty_only_from_empty_text_witness :
  fst (_execute_mcp_tool silent_env "get_weather" tokyo silent_state) = inr "" /\
  exists (s : ClientSession) (result : CallToolResult) (w' : World silent_env),
    MCPClaudeClient.mcp_session (self_obj silent_state) = Some s /\
    call_tool silent_env s "get_weather" tokyo (world silent_state) =
      (inr result, w') /\
    head (result_content result) = Some (TextContent "").
Proof.
  assert (H1 : fst (_execute_mcp_tool silent_env "get_weather" tokyo
                      silent_state) = inr "") by (vm_compute; reflexivity).
  split; [exact H1 |].
  exact (execute_empty_only_from_empty_text (E := silent_env) "get_weather"
           tokyo silent_state H1).
Defined.

Lemma chat_keeps_client_witness :
  heap two_cities_state !! caller_history = Some demo_history /\
  self_obj (snd (chat_with_tools weather_env caller_history default_model
                   default_max_tokens two_cities_state)) =
  self_obj two_cities_state.
Proof.
  assert (H1 : heap two_cities_state !! caller_history = Some demo_history)
    by (vm_compute; reflexivity).
  split; [exact H1 |].
  exact (chat_keeps_client (E := weather_env) caller_history default_model
           default_max_tokens demo_history two_cities_state H1).
Defined.


Lemma chat_first_failure_propagates_witness :
  heap offline_model_state !! caller_history = Some demo_history /\
  messages_create weather_env
    (first_request (self_obj offline_model_state) demo_history default_model
                   default_max_tokens)
    (world offline_model_state) = (inl model_offline, []) /\
  fst (chat_with_tools weather_env caller_history default_model
         default_max_tokens offline_model_state) = inl model_offline /\
  trace (snd (chat_with_tools weather_env caller_history default_model
                default_max_tokens offline_model_state)) =
    trace offline_model_state ++
    [EvCreate (Request.Make default_model default_max_tokens
                 (last (system_contents demo_history))
                 (non_system demo_history)
                 (tools_or_none
                    (_convert_mcp_tools_to_claude_format
                       (self_obj offline_model_state))))] /\
  world (snd (chat_with_tools weather_env caller_history default_model
                default_max_tokens offline_model_state)) = [].
Proof.
  assert (H1 : heap offline_model_state !! caller_history = Some demo_history)
    by (vm_compute; reflexivity).
  assert (H2 : messages_create weather_env
                 (first_request (self_obj offline_model_state) demo_history
                                default_model default_max_tokens)
                 (world offline_model_state) = (inl model_offline, []))
    by reflexivity.
  split; [exact H1 |]. split; [exact H2 |].
  exact (chat_first_failure_propagates (E := weather_env) caller_history
           default_model default_max_tokens demo_history offline_model_state
           model_offline [] H1 H2).
Defined.

Lemma chat_history_without_system_witness :
  heap user_only_state !! caller_history = Some user_only_history /\
  has_system_role user_only_history = false /\
  exists evs : list Event,
    trace (snd (chat_with_tools weather_env caller_history default_model
                  default_max_tokens user_only_state)) =
    trace user_only_state ++
    EvCreate (Request.Make default_model default_max_tokens None
                user_only_history
                (tools_or_none
                   (_convert_mcp_tools_to_claude_format
                      (self_obj user_only_state))))
    :: evs.
Proof.
  assert (H1 : heap user_only_state !! caller_history = Some user_only_history)
    by (vm_compute; reflexivity).
  assert (H2 : has_system_role user_only_history = false) by reflexivity.
  split; [exact H1 |]. split; [exact H2 |].
  exact (chat_history_without_system (E := weather_env) caller_history
           default_model default_max_tokens user_only_history user_only_state
           H1 H2).
Defined.

Lemma chat_offers_catalog_witness :
  heap two_cities_state !! caller_history = Some demo_history /\
  MCPClaudeClient.available_tools (self_obj two_cities_state) <> [] /\
  exists (first : Request.t) (offered : list ClaudeTool.t) (evs : list Event),
    trace (snd (chat_with_tools weather_env caller_history default_model
                  default_max_tokens two_cities_state)) =
      trace two_cities_state ++ EvCreate first :: evs /\
    Request.tools first = ToolsList offered /\
    map ClaudeTool.name offered =
      map Tool.name
          (MCPClaudeClient.available_tools (self_obj two_cities_state)) /\
    Forall (fun req => Request.tools req = ToolsNotGiven) (requests evs).
Proof.
  assert (H1 : heap two_cities_state !! caller_history = Some demo_history)
    by (vm_compute; reflexivity).
  assert (H2 : MCPClaudeClient.available_tools (self_obj two_cities_state)
               <> []) by discriminate.
  split; [exact H1 |]. split; [exact H2 |].
  exact (chat_offers_catalog (E := weather_env) caller_history default_model
           default_max_tokens demo_history two_cities_state H1 H2).
Defined.

Lemma chat_at_most_two_requests_witness :
  heap two_cities_state !! caller_history = Some demo_history /\
  exists evs : list Event,
    trace (snd (chat_with_tools weather_env caller_history default_model
                  default_max_tokens two_cities_state)) =
      trace two_cities_state ++ evs /\
    (1 <= length (requests evs) <= 2)%nat.
Proof.
  assert (H1 : heap two_cities_state !! caller_history = Some demo_history)
    by (vm_compute; reflexivity).
  split; [exact H1 |].
  exact (chat_at_most_two_requests (E := weather_env) caller_history
           default_model default_max_tokens demo_history two_cities_state H1).
Defined.

Lemma chat_tool_use_without_blocks_witness :
  heap no_block_state !! caller_history = Some demo_history /\
  messages_create weather_env
    (first_request (self_obj no_block_state) demo_history default_model
                   default_max_tokens)
    (world no_block_state) = (inr asks_nothing, [inr sunny_answer]) /\
  Response.stop_reason asks_nothing = Some "tool_use" /\
  count_tool_use (Response.content asks_nothing) = 0%nat /\
  trace (snd (chat_with_tools weather_env caller_history default_model
                default_max_tokens no_block_state)) =
    trace no_block_state ++
    [EvCreate (first_request (self_obj no_block_state) demo_history
                             default_model default_max_tokens);
     EvCreate
       (Request.Make default_model default_max_tokens
          (last (system_contents demo_history))
          (non_system demo_history ++
           [Message.Make "assistant"
              (ContentBlocks (Response.content asks_nothing));
            Message.Make "user" (ContentBlocks [])])
          ToolsNotGiven)].
Proof.
  assert (H1 : heap no_block_state !! caller_history = Some demo_history)
    by (vm_compute; reflexivity).
  assert (H2 : messages_create weather_env
                 (first_request (self_obj no_block_state) demo_history
                                default_model default_max_tokens)
                 (world no_block_state) = (inr asks_nothing, [inr sunny_answer]))
    by reflexivity.
  assert (H3 : Response.stop_reason asks_nothing = Some "tool_use")
    by reflexivity.
  assert (H4 : count_tool_use (Response.content asks_nothing) = 0%nat)
    by reflexivity.
  split; [exact H1 |]. split; [exact H2 |]. split; [exact H3 |].
  split; [exact H4 |].
  exact (chat_tool_use_without_blocks (E := weather_env) caller_history
           default_model default_max_tokens demo_history no_block_state
           asks_nothing [inr sunny_answer] H1 H2 H3 H4).
Defined.

Lemma aenter_failure_releases_nothing_witness :
  __aenter__ handshake_failure_env handshake_failure_state =
    (inl handshake_failure,
     snd (__aenter__ handshake_failure_env handshake_failure_state)) /\
  async_with handshake_failure_env
    (simple_chat_body handshake_failure_env "Hello") handshake_failure_state =
    (inl handshake_failure,
     snd (__aenter__ handshake_failure_env handshake_failure_state)) /\
  exists evs : list Event,
    trace (snd (__aenter__ handshake_failure_env handshake_failure_state)) =
      trace handshake_failure_state ++
      EvSseEnter
        {| sse_url :=
             MCPClaudeClient.mcp_server_url (self_obj handshake_failure_state) |}
      :: evs /\
    session_released evs = false /\
    connection_released evs = false /\
    requests evs = [] /\
    heap (snd (__aenter__ handshake_failure_env handshake_failure_state)) =
      heap handshake_failure_state.
Proof.
  assert (H1 : __aenter__ handshake_failure_env handshake_failure_state =
               (inl handshake_failure,
                snd (__aenter__ handshake_failure_env handshake_failure_state)))
    by (vm_compute; reflexivity).
  split; [exact H1 |].
  exact (aenter_failure_releases_nothing (E := handshake_failure_env)
           (simple_chat_body handshake_failure_env "Hello")
           handshake_failure_state _ handshake_failure H1).
Defined.

Lemma aenter_caches_catalog_witness :
  __aenter__ weather_env (fresh_client_state []) =
    (inr tt, snd (__aenter__ weather_env (fresh_client_state []))) /\
  exists (s : ClientSession) (w w' : World weather_env) (tools : list Tool.t),
    session_list_tools weather_env s w = (inr tools, w') /\
    MCPClaudeClient.mcp_session
      (self_obj (snd (__aenter__ weather_env (fresh_client_state [])))) =
      Some s /\
    MCPClaudeClient.available_tools
      (self_obj (snd (__aenter__ weather_env (fresh_client_state [])))) =
      tools /\
    world (snd (__aenter__ weather_env (fresh_client_state []))) = w' /\
    heap (snd (__aenter__ weather_env (fresh_client_state []))) =
      heap (fresh_client_state []) /\
    MCPClaudeClient.mcp_server_url
      (self_obj (snd (__aenter__ weather_env (fresh_client_state [])))) =
      MCPClaudeClient.mcp_server_url (self_obj (fresh_client_state [])).
Proof.
  assert (H1 : __aenter__ weather_env (fresh_client_state []) =
               (inr tt, snd (__aenter__ weather_env (fresh_client_state []))))
    by (vm_compute; reflexivity).
  split; [exact H1 |].
  exact (aenter_caches_catalog (E := weather_env) (fresh_client_state []) _ H1).
Defined.

Lemma scoped_release_failure_masks_outcome_witness :
  __aenter__ failing_close_env failing_close_new_state =
    (inr tt, snd (__aenter__ failing_close_env failing_close_new_state)) /\
  simple_chat_body failing_close_env "Hello"
    (snd (__aenter__ failing_close_env failing_close_new_state)) =
    (inr "It's sunny in Tokyo.",
     snd (simple_chat_body failing_close_env "Hello"
            (snd (__aenter__ failing_close_env failing_close_new_state)))) /\
  async_with failing_close_env (simple_chat_body failing_close_env "Hello")
    failing_close_new_state =
  (inl session_close_error,
   MkState (E := failing_close_env) []
     (heap (snd (simple_chat_body failing_close_env "Hello"
                   (snd (__aenter__ failing_close_env failing_close_new_state)))))
     (self_obj (snd (simple_chat_body failing_close_env "Hello"
                       (snd (__aenter__ failing_close_env
                                        failing_close_new_state)))))
     (trace (snd (simple_chat_body failing_close_env "Hello"
                    (snd (__aenter__ failing_close_env
                                     failing_close_new_state)))) ++
      [EvSessionExit demo_session
         (exit_info (A := string) (inr "It's sunny in Tokyo."))])).
Proof.
  assert (H1 : __aenter__ failing_close_env failing_close_new_state =
               (inr tt, snd (__aenter__ failing_close_env
                                        failing_close_new_state)))
    by (vm_compute; reflexivity).
  assert (H2 : simple_chat_body failing_close_env "Hello"
                 (snd (__aenter__ failing_close_env failing_close_new_state)) =
               (inr "It's sunny in Tokyo.",
                snd (simple_chat_body failing_close_env "Hello"
                       (snd (__aenter__ failing_close_env
                                        failing_close_new_state)))))
    by (vm_compute; reflexivity).
  split; [exact H1 |]. split; [exact H2 |].
  apply (scoped_release_failure_masks_outcome (E := failing_close_env)
           (simple_chat_body failing_close_env "Hello")
           failing_close_new_state _ _ (inr "It's sunny in Tokyo.")
           demo_session session_close_error [] H1 H2);
    vm_compute; reflexivity.
Defined.

Lemma simple_chat_first_request_witness :
  __aenter__ weather_env (fresh_client_state [inr sunny_answer]) =
    (inr tt, snd (__aenter__ weather_env (fresh_client_state [inr sunny_answer]))) /\
  exists evs : list Event,
    trace (snd (simple_claude_mcp_chat weather_env "Hello"
                  (fresh_client_state [inr sunny_answer]))) =
    trace (snd (__aenter__ weather_env (fresh_client_state [inr sunny_answer]))) ++
    EvCreate
      (Request.Make "claude-3-5-sonnet-20241022" 1024 None
         [Message.Make "user" (ContentText "Hello")]
         (tools_or_none
            (_convert_mcp_tools_to_claude_format
               (self_obj (snd (__aenter__ weather_env
                                 (fresh_client_state [inr sunny_answer])))))))
    :: evs.
Proof.
  assert (H1 : __aenter__ weather_env (fresh_client_state [inr sunny_answer]) =
               (inr tt,
                snd (__aenter__ weather_env
                       (fresh_client_state [inr sunny_answer]))))
    by (vm_compute; reflexivity).
  split; [exact H1 |].
  exact (simple_chat_first_request (E := weather_env) "Hello"
           (fresh_client_state [inr sunny_answer]) _ H1).
Defined.

Lemma main_without_key_witness :
  (@None string = None \/ None = Some "your-anthropic-api-key-here") /\
  main weather_env None loop_inputs (loop_state, []) =
  (inr tt,
   (fst (loop_state, @nil Output),
    snd (loop_state, @nil Output) ++
    [OutPleaseSetKey; OutKeyOption1; OutKeyOption2])).
Proof.
  assert (H1 : @None string = None \/ None = Some "your-anthropic-api-key-here")
    by (left; reflexivity).
  split; [exact H1 |].
  exact (main_without_key (E := weather_env) None loop_inputs
           (loop_state, []) H1).
Defined.

Lemma main_reports_connection_failure_witness :
  "" <> "your-anthropic-api-key-here" /\
  __aenter__ handshake_failure_env (with_new_client handshake_failure_state) =
    (inl handshake_failure,
     snd (__aenter__ handshake_failure_env
            (with_new_client handshake_failure_state))) /\
  main handshake_failure_env (Some "") loop_inputs
       (handshake_failure_state, []) =
  (inr tt,
   (snd (__aenter__ handshake_failure_env
           (with_new_client handshake_failure_state)),
    [] ++ [OutFailedToConnect (exn_str handshake_failure); OutServerHint])).
Proof.
  assert (H1 : "" <> "your-anthropic-api-key-here") by discriminate.
  assert (H2 : __aenter__ handshake_failure_env
                 (with_new_client handshake_failure_state) =
               (inl handshake_failure,
                snd (__aenter__ handshake_failure_env
                       (with_new_client handshake_failure_state))))
    by (vm_compute; reflexivity).
  split; [exact H1 |]. split; [exact H2 |].
  exact (main_reports_connection_failure (E := handshake_failure_env) ""
           loop_inputs handshake_failure_state _ [] handshake_failure H1 H2).
Defined.

Lemma quick_example_without_key_witness :
  (Some "" = None \/ Some "" = Some "") /\
  quick_example weather_env (Some "") (loop_state, []) =
  (inr tt,
   (fst (loop_state, @nil Output),
    snd (loop_state, @nil Output) ++ [OutSetEnvironment])).
Proof.
  assert (H1 : Some "" = None \/ Some "" = Some "") by (right; reflexivity).
  split; [exact H1 |].
  exact (quick_example_without_key (E := weather_env) (Some "")
           (loop_state, []) H1).
Defined.

Lemma quick_example_propagates_setup_failure_witness :
  "sk-ant-test" <> "" /\
  __aenter__ handshake_failure_env (with_new_client handshake_failure_state) =
    (inl handshake_failure,
     snd (__aenter__ handshake_failure_env
            (with_new_client handshake_failure_state))) /\
  quick_example handshake_failure_env (Some "sk-ant-test")
                (handshake_failure_state, []) =
  (inl handshake_failure,
   (snd (__aenter__ handshake_failure_env
           (with_new_client handshake_failure_state)), [])).
Proof.
  assert (H1 : "sk-ant-test" <> "") by discriminate.
  assert (H2 : __aenter__ handshake_failure_env
                 (with_new_client handshake_failure_state) =
               (inl handshake_failure,
                snd (__aenter__ handshake_failure_env
                       (with_new_client handshake_failure_state))))
    by (vm_compute; reflexivity).
  split; [exact H1 |]. split; [exact H2 |].
  exact (quick_example_propagates_setup_failure (E := handshake_failure_env)
           "sk-ant-test" handshake_failure_state _ [] handshake_failure H1 H2).
Defined.


Lemma get_weather_injective_witness :
  get_weather "Tokyo" = get_weather "Tokyo" /\ "Tokyo" = "Tokyo".
Proof.
  assert (H1 : get_weather "Tokyo" = get_weather "Tokyo") by reflexivity.
  split; [exact H1 |].
  exact (get_weather_injective "Tokyo" "Tokyo" H1).
Defined.

Lemma main_example_request_witness :
  "sk-ant-test" <> "your-anthropic-api-key-here" /\
  __aenter__ weather_env (with_new_client (fresh_client_state [inr sunny_answer])) =
    (inr tt,
     snd (__aenter__ weather_env
            (with_new_client (fresh_client_state [inr sunny_answer])))) /\
  exists evs : list Event,
    trace (fst (snd (main weather_env (Some "sk-ant-test") loop_inputs
                       (fresh_client_state [inr sunny_answer], [])))) =
    trace (snd (__aenter__ weather_env
                  (with_new_client (fresh_client_state [inr sunny_answer])))) ++
    EvCreate
      (demo_request
         (self_obj (snd (__aenter__ weather_env
                           (with_new_client
                              (fresh_client_state [inr sunny_answer]))))))
    :: evs.
Proof.
  assert (H1 : "sk-ant-test" <> "your-anthropic-api-key-here") by discriminate.
  assert (H2 : __aenter__ weather_env
                 (with_new_client (fresh_client_state [inr sunny_answer])) =
               (inr tt,
                snd (__aenter__ weather_env
                       (with_new_client
                          (fresh_client_state [inr sunny_answer])))))
    by (vm_compute; reflexivity).
  split; [exact H1 |]. split; [exact H2 |].
  exact (main_example_request (E := weather_env) "sk-ant-test" loop_inputs
           (fresh_client_state [inr sunny_answer]) _ [] H1 H2).
Defined.

(** ** Runs of the entry points *)

(** The interactive loop on three lines: the first turn is answered, the
    second fails (the model is out of answers) and leaves the user's line
    alone in the history, the third line quits. *)
Example chat_loop_run :
  heap (fst (snd (chat_loop weather_env loop_inputs caller_history
                    (loop_state, [])))) !! caller_history =
    Some [weather_system_message;
          Message.Make "user" (ContentText "Hello");
          Message.Make "assistant" (ContentText "It's sunny in Tokyo.");
          Message.Make "user" (ContentText "And tomorrow?")] /\
  snd (snd (chat_loop weather_env loop_inputs caller_history (loop_state, []))) =
    [OutPrompt; OutClaude "It's sunny in Tokyo.";
     OutPrompt; OutError "Connection error."; OutPrompt] /\
  fst (chat_loop weather_env loop_inputs caller_history (loop_state, [])) =
    inr tt.
Proof. repeat split; vm_compute; reflexivity. Qed.

(** [main] when standard input ends without a quit word: the end of
    input is reported as a failure to connect, after both handles were
    released. *)
Example main_end_of_input :
  let run :=
    main weather_env (Some "sk-ant-test") ["Hello"]
         (fresh_client_state [inr sunny_answer; inr sunny_answer], [])
  in
  fst run = inr tt /\
  snd (snd run) =
    [OutConnected; OutAvailableTools ["get_weather"]; OutBlank; OutStarting;
     OutClaude "It's sunny in Tokyo."; OutSeparator; OutInteractive;
     OutPrompt; OutClaude "It's sunny in Tokyo."; OutPrompt;
     OutFailedToConnect "EOF when reading a line"; OutServerHint] /\
  connection_released (trace (fst (snd run))) = true.
Proof. repeat split; vm_compute; reflexivity. Qed.
